(** * MPA: Mobidic Prioritization Algorithm -- verification of src/MPA.py

    A shallow embedding of the classification and scoring engine of MPA.py
    (the predictor aggregation, the ClinVar, splicing and exonic classifiers,
    the ranking loop of [process], the two validators and the program's exit
    status), followed by the properties the specification states about it.

    Conventions.
    - Python [str] values are modelled by [string]; a character is a code
      point below 256.  On that range [re.IGNORECASE] folds exactly the ASCII
      letters (the extra Unicode equivalences of the [re] module, such as the
      long s or the Kelvin sign, all lie above U+00FF).
    - Python [int] is [Z]; Python [float] is the kernel's binary64 [float],
      the same IEEE 754 format with the same rounding.
    - A value that is [False] or an [int] (what every classifier returns) is
      a [pyrank]; a value that is an [int] or a [float] is a [pynum].
    - A call that may raise returns a [result]. *)

From Stdlib Require Import ZArith List String Ascii Bool Lia.
From Stdlib Require Import Floats Uint63 Permutation.
Import ListNotations.

Local Open Scope string_scope.
Local Open Scope Z_scope.

(** ** Text: case-insensitive search of a literal pattern *)

Module Text.

(** [str.lower] on one character (ASCII range [A-Z]). *)
Definition lower (c : ascii) : ascii :=
  let n := N_of_ascii c in
  if ((65 <=? n) && (n <=? 90))%N then ascii_of_N (n + 32) else c.

Fixpoint lower_str (s : string) : string :=
  match s with
  | EmptyString => EmptyString
  | String c s' => String (lower c) (lower_str s')
  end.

(** The pattern matched at the current position of the text, both sides
    folded: what the regex engine does for a pattern made of literal
    characters under [re.IGNORECASE]. *)
Fixpoint match_here (pat txt : string) : bool :=
  match pat, txt with
  | EmptyString, _ => true
  | String _ _, EmptyString => false
  | String a pat', String b txt' =>
      Ascii.eqb (lower a) (lower b) && match_here pat' txt'
  end.

(** [re.search(pat, txt, re.IGNORECASE)] for a literal pattern and a [str]
    text, as a truth value (the callers only test the match object):
    the positions of the text are tried from left to right. *)
Fixpoint search_ic (pat txt : string) : bool :=
  match_here pat txt ||
  match txt with
  | EmptyString => false
  | String _ txt' => search_ic pat txt'
  end.

(** The property the specification names: the text contains, somewhere,
    a run of characters equal to the pattern up to letter case. *)
Definition contains_ic (pat txt : string) : Prop :=
  exists pre mid post,
    txt = pre ++ mid ++ post /\ lower_str mid = lower_str pat.

(** [s.split(sep)] for a one-character separator: never empty. *)
Fixpoint split (sep : ascii) (s : string) : list string :=
  match s with
  | EmptyString => [EmptyString]
  | String c s' =>
      if Ascii.eqb c sep then EmptyString :: split sep s'
      else match split sep s' with
           | [] => [String c EmptyString]
           | hd :: tl => String c hd :: tl
           end
  end.

(** [s[:-1]]: the string without its last character ([""] stays [""]). *)
Fixpoint drop_last (s : string) : string :=
  match s with
  | EmptyString => EmptyString
  | String c EmptyString => EmptyString
  | String c s' => String c (drop_last s')
  end.

End Text.

(** ** Python values *)

Inductive pyrank : Type :=
| PyFalse
| PyInt (n : Z).

Inductive pynum : Type :=
| NInt (n : Z)
| NFloat (x : float).

Inductive pyexc : Type :=
| TypeError (msg : string)
| SystemExit (msg : string).

Inductive result (A : Type) : Type :=
| Ok (a : A)
| Raise (e : pyexc).
Arguments Ok {A} a.
Arguments Raise {A} e.

Definition bind {A B} (m : result A) (k : A -> result B) : result B :=
  match m with
  | Ok a => k a
  | Raise e => Raise e
  end.

Notation "x <- m ;; k" := (bind m (fun x => k))
  (at level 61, m at next level, right associativity).

(** Truth value of [False] or an [int]. *)
Definition truthy (v : pyrank) : bool :=
  match v with
  | PyFalse => false
  | PyInt n => negb (n =? 0)
  end.

(** [bool] is a subclass of [int]: [False] compares as [0]. *)
Definition int_of (v : pyrank) : Z :=
  match v with
  | PyFalse => 0
  | PyInt n => n
  end.

Definition py_lt (a b : pyrank) : bool := int_of a <? int_of b.

(** [float(n)] for an [int] in the range of the counters used here
    ([0 <= n < 2^63]; the conversion rounds to nearest like Python's). *)
Definition py_float (n : Z) : float := PrimFloat.of_uint63 (Uint63.of_Z n).

(** [re.search(pat, txt, re.IGNORECASE)]: a text that is [None] raises
    [TypeError] ("expected string or bytes-like object"). *)
Definition re_search (pat : string) (txt : option string) : result bool :=
  match txt with
  | Some s => Ok (Text.search_ic pat s)
  | None => Raise (TypeError "expected string or bytes-like object")
  end.

(** ** The data model *)

(** The splice score set built by [process]: a dict with exactly the keys
    ["ADA"], ["RF"] and ["Zscore"], each [None] or a number, given here as
    the value [float(x)] that [is_splice_impact] compares. *)
Record SpliceScores : Type := {
  ADA : option float;
  RF : option float;
  Zscore : option float
}.

(** One record of the VCF, as [process] reads it: the structural fields and
    the first value of each consumed INFO field ([None] for a missing value,
    written [.] in the file).  Every consumed key is present in [record.INFO]
    and holds a list, as in a file annotated by annovar. *)
Record VcfRecord : Type := {
  REF : string;
  ALT : list string;
  is_indel : bool;
  SIFT_pred : option string;
  Polyphen2_HDIV_pred : option string;
  Polyphen2_HVAR_pred : option string;
  LRT_pred : option string;
  MutationTaster_pred : option string;
  FATHMM_pred : option string;
  PROVEAN_pred : option string;
  fathmm_MKL_coding_pred : option string;
  MetaSVM_pred : option string;
  MetaLR_pred : option string;
  dbscSNV_ADA_SCORE : option float;
  dbscSNV_RF_SCORE : option float;
  dpsi_zscore : option float;
  CLNSIG : option string;
  Func_refGene : option string;
  ExonicFunc_refGene : option string
}.

(** The dict returned by [calculate_adjusted_score]. *)
Record Scores : Type := {
  adjusted : pynum;
  available : Z;
  deleterious : Z
}.

(** The six INFO fields [process] adds to a record before writing it.
    [MPA_final_score] is the key ["final_score"] of the score dict, which
    exists only once the ranking code has assigned it. *)
Record Annotation : Type := {
  MPA_adjusted : pynum;
  MPA_available : Z;
  MPA_deleterious : Z;
  MPA_final_score : option pynum;
  MPA_impact : string;
  MPA_ranking : pyrank
}.

(** A dict with [str] keys, in insertion order (Python 3.6 and later). *)
Definition dict (V : Type) : Type := list (string * V).

Fixpoint dict_get {V} (d : dict V) (k : string) : option V :=
  match d with
  | [] => None
  | (k', v) :: d' => if String.eqb k k' then Some v else dict_get d' k
  end.

(** [d[k] = v]: an existing key keeps its place, a new key goes last. *)
Fixpoint dict_set {V} (d : dict V) (k : string) (v : V) : dict V :=
  match d with
  | [] => [(k, v)]
  | (k', v') :: d' =>
      if String.eqb k k' then (k', v) :: d' else (k', v') :: dict_set d' k v
  end.

(** ** The functions of MPA.py *)

(** The names tested by [check_annotation], in the order of the source
    (['FATHMM_pred'] is listed twice there). *)
Definition vcf_keys : list string :=
  [ "ExonicFunc.refGene";
    "FATHMM_pred";
    "Func.refGene";
    "dbscSNV_ADA_SCORE";
    "dbscSNV_RF_SCORE";
    "dpsi_zscore";
    "SIFT_pred";
    "Polyphen2_HDIV_pred";
    "Polyphen2_HVAR_pred";
    "LRT_pred";
    "MutationTaster_pred";
    "FATHMM_pred";
    "PROVEAN_pred";
    "fathmm-MKL_coding_pred";
    "MetaSVM_pred";
    "MetaLR_pred";
    "CLNSIG" ].

Definition mem (k : string) (keys : list string) : bool :=
  existsb (String.eqb k) keys.

Definition annotation_error : string :=
  "VCF not correctly annotated. See documentation and provide a well annotated vcf (annotation with annovar).".

(** [check_annotation]: [vcf_infos] is the header's INFO dict, of which only
    the keys matter. *)
Definition check_annotation (vcf_infos : list string) : result unit :=
  if negb (forallb (fun k => mem k vcf_infos) vcf_keys)
  then Raise (SystemExit annotation_error)
  else Ok tt.

Definition multi_ref_error : string :=
  "Multi references on vcf. It seems that your vcf not followed the specifications.".

Definition multi_alt_error : string :=
  "Multi allelic variant on vcf. See documentation and provide a well processed vcf (split variants).".

Definition check_split_variants (record : VcfRecord) : result unit :=
  if (1 <? Z.of_nat (List.length (Text.split "," (REF record))))
  then Raise (SystemExit multi_ref_error)
  else if (1 <? Z.of_nat (List.length (ALT record)))
  then Raise (SystemExit multi_alt_error)
  else Ok tt.

(** The loop of [calculate_adjusted_score] over [scores_impact.items()],
    with its two counters. *)
Fixpoint count_impacts (items : list (string * option string))
    (deleterious available : Z) : Z * Z :=
  match items with
  | [] => (deleterious, available)
  | (_, impact) :: rest =>
      match impact with
      | Some s =>
          if String.eqb s "D"
          then count_impacts rest (deleterious + 1) (available + 1)
          else count_impacts rest deleterious (available + 1)
      | None => count_impacts rest deleterious available
      end
  end.

Definition calculate_adjusted_score (scores_impact : dict (option string)) : Scores :=
  let '(deleterious, available) := count_impacts scores_impact 0 0 in
  let score_adjusted :=
    if 0 <? available
    then NFloat (py_float deleterious / py_float available * 10)%float
    else NInt 0 in
  {| adjusted := score_adjusted;
     available := available;
     deleterious := deleterious |}.

Definition is_clinvar_pathogenic (clinsig : option string) : pyrank :=
  match clinsig with
  | None => PyFalse
  | Some s =>
      let match_pathogenic := Text.search_ic "pathogenic" s in
      let match_benign := Text.search_ic "benign" s in
      let match_conflicting := Text.search_ic "conflicting" s in
      if match_pathogenic && negb match_benign && negb match_conflicting
      then PyInt 1
      else PyFalse
  end.

Definition is_some {A} (o : option A) : bool :=
  match o with Some _ => true | None => false end.

Definition is_none {A} (o : option A) : bool := negb (is_some o).

(** The literal [0.6] of the source: the binary64 value nearest to 6/10. *)
Definition splice_threshold : float := 0x1.3333333333333p-1%float.

(** [x != None and float(x) >= bound]. *)
Definition score_ge (x : option float) (bound : float) : bool :=
  match x with
  | Some v => PrimFloat.leb bound v
  | None => false
  end.

Definition is_splice_impact (splices_scores : SpliceScores) (is_indel : bool)
    (funcRefGene : option string) : result pyrank :=
  let ADA_splice := score_ge (ADA splices_scores) splice_threshold in
  let RF_splice := score_ge (RF splices_scores) splice_threshold in
  let Zscore_splice :=
    match Zscore splices_scores with
    | Some z =>
        is_none (ADA splices_scores) && is_none (RF splices_scores)
        && PrimFloat.ltb z (-2)%float
    | None => false
    end in
  match_splicing <- re_search "splicing" funcRefGene ;;
  let home_splice := is_indel && match_splicing in
  Ok (if RF_splice then PyInt 3
      else if ADA_splice then PyInt 4
      else if Zscore_splice then PyInt 5
      else if home_splice then PyInt 6
      else PyFalse).

Definition is_stop_impact (exonicFuncRefGene : string) : pyrank :=
  let match_stoploss := Text.search_ic "stoploss" exonicFuncRefGene in
  let match_stopgain := Text.search_ic "stopgain" exonicFuncRefGene in
  if match_stopgain || match_stoploss then PyInt 2 else PyFalse.

Definition is_frameshift_impact (exonicFuncRefGene : string) : pyrank :=
  let match_frameshift := Text.search_ic "frameshift" exonicFuncRefGene in
  let match_nonframeshift := Text.search_ic "nonframeshift" exonicFuncRefGene in
  if match_frameshift && negb match_nonframeshift then PyInt 2 else PyFalse.

Definition is_missense_impact (exonicFuncRefGene : string) : pyrank :=
  let match_missense := Text.search_ic "nonsynonymous_SNV" exonicFuncRefGene in
  if match_missense then PyInt 7 else PyFalse.

Definition is_unknown_impact (exonicFuncRefGene : string) : pyrank :=
  let match_unknown := Text.search_ic "unknown" exonicFuncRefGene in
  if match_unknown then PyInt 8 else PyFalse.

(** ** [process]: one record *)

Definition impacts_scores (record : VcfRecord) : dict (option string) :=
  [ ("SIFT", SIFT_pred record);
    ("HDIV", Polyphen2_HDIV_pred record);
    ("HVAR", Polyphen2_HVAR_pred record);
    ("LRT", LRT_pred record);
    ("MutationTaster", MutationTaster_pred record);
    ("FATHMM", FATHMM_pred record);
    ("PROVEAN", PROVEAN_pred record);
    ("MKL", fathmm_MKL_coding_pred record);
    ("SVM", MetaSVM_pred record);
    ("LR", MetaLR_pred record) ].

Definition splices_scores (record : VcfRecord) : SpliceScores :=
  {| ADA := dbscSNV_ADA_SCORE record;
     RF := dbscSNV_RF_SCORE record;
     Zscore := dpsi_zscore record |}.

(** The literal [meta_impact] of the source: ["missense_impact"] is not one
    of its keys. *)
Definition initial_meta_impact : dict pyrank :=
  [ ("clinvar_pathogenicity", PyFalse);
    ("splice_impact", PyFalse);
    ("stop_impact", PyFalse);
    ("frameshift_impact", PyFalse);
    ("unknown_impact", PyFalse) ].

(** The classifier calls of [process], in the order of the source, filling
    [meta_impact]. *)
Definition classify (record : VcfRecord) : result (dict pyrank) :=
  let meta_impact := initial_meta_impact in
  let meta_impact :=
    dict_set meta_impact "clinvar_pathogenicity"
      (is_clinvar_pathogenic (CLNSIG record)) in
  splice <- is_splice_impact (splices_scores record) (is_indel record)
              (Func_refGene record) ;;
  let meta_impact := dict_set meta_impact "splice_impact" splice in
  match_exonic <- re_search "exonic" (Func_refGene record) ;;
  Ok (match (if match_exonic then ExonicFunc_refGene record else None) with
      | Some exonicFunc =>
          let meta_impact :=
            dict_set meta_impact "stop_impact" (is_stop_impact exonicFunc) in
          let meta_impact :=
            dict_set meta_impact "frameshift_impact"
              (is_frameshift_impact exonicFunc) in
          let meta_impact :=
            dict_set meta_impact "missense_impact"
              (is_missense_impact exonicFunc) in
          dict_set meta_impact "unknown_impact" (is_unknown_impact exonicFunc)
      | None => meta_impact
      end).

(** The variables the ranking loop updates: [rank], the text accumulated in
    [record.INFO['MPA_impact']] and the key ["final_score"] of the score
    dict (absent until assigned). *)
Record Ranking : Type := {
  rank : pyrank;
  impact_text : string;
  final_score : option pynum
}.

Definition ranking_start : Ranking :=
  {| rank := PyFalse; impact_text := ""; final_score := None |}.

(** One turn of [for impact in meta_impact], on the entry of key [impact]:
    the keys of a dict are distinct, so [meta_impact[impact]] is the value
    of that entry. *)
Definition rank_step (adjusted_value : pynum) (st : Ranking)
    (entry : string * pyrank) : Ranking :=
  let '(impact, flag) := entry in
  if truthy flag then
    let text := impact_text st ++ impact ++ "," in
    if py_lt flag (rank st) || negb (truthy (rank st)) then
      {| rank := flag;
         impact_text := text;
         final_score :=
           Some (if String.eqb impact "unknown_impact"
                    || String.eqb impact "missense_impact"
                 then adjusted_value
                 else NInt 10) |}
    else
      {| rank := rank st; impact_text := text; final_score := final_score st |}
  else st.

Definition rank_loop (adjusted_value : pynum) (meta_impact : dict pyrank) : Ranking :=
  fold_left (rank_step adjusted_value) meta_impact ranking_start.

(** The ranking code of [process], from [rank = False] to the six fields
    written into [record.INFO]. *)
Definition resolve (adjusted_score : Scores) (meta_impact : dict pyrank) : Annotation :=
  let st := rank_loop (adjusted adjusted_score) meta_impact in
  let st :=
    if negb (truthy (rank st))
    then {| rank := PyInt 8;
            impact_text := "NULL,";
            final_score := Some (adjusted adjusted_score) |}
    else st in
  {| MPA_adjusted := adjusted adjusted_score;
     MPA_available := available adjusted_score;
     MPA_deleterious := deleterious adjusted_score;
     MPA_final_score := final_score st;
     MPA_impact := Text.drop_last (impact_text st);
     MPA_ranking := rank st |}.

(** The body of the record loop after [check_split_variants]. *)
Definition annotate (record : VcfRecord) : result Annotation :=
  let adjusted_score := calculate_adjusted_score (impacts_scores record) in
  meta_impact <- classify record ;;
  Ok (resolve adjusted_score meta_impact).

(** ** [process] and the main program *)

Inductive level : Type := INFO | ERROR.

(** What a logging call is given: a text, or [str(record)]. *)
Inductive message : Type :=
| Msg (text : string)
| MsgRecord (record : VcfRecord).

(** The observable state of a run: the [log.info] and [log.error] calls made
    so far (the [log.debug] calls are left out) and the records given to
    [vcf_writer.write_record], both oldest first. *)
Record Run : Type := {
  log : list (level * message);
  written : list (VcfRecord * Annotation)
}.

Definition run_start : Run := {| log := []; written := [] |}.

Definition log_call (l : level) (m : message) (st : Run) : Run :=
  {| log := log st ++ [(l, m)]; written := written st |}.

Definition write_record (record : VcfRecord) (a : Annotation) (st : Run) : Run :=
  {| log := log st; written := written st ++ [(record, a)] |}.

(** [for record in vcf_reader]: only [SystemExit] is caught. *)
Fixpoint process_records (records : list VcfRecord) (st : Run) : Run * result unit :=
  match records with
  | [] => (st, Ok tt)
  | record :: rest =>
      match check_split_variants record with
      | Raise (SystemExit e) =>
          process_records rest
            (log_call ERROR (Msg e) (log_call ERROR (MsgRecord record) st))
      | Raise e => (st, Raise e)
      | Ok _ =>
          match annotate record with
          | Ok a => process_records rest (write_record record a st)
          | Raise e => (st, Raise e)
          end
      end
  end.

Definition mpa_infos : list string :=
  [ "MPA_adjusted"; "MPA_available"; "MPA_deleterious";
    "MPA_final_score"; "MPA_impact"; "MPA_ranking" ].

(** [infos.update({k: ...})] on the keys of the header's INFO dict. *)
Definition infos_update (infos : list string) (k : string) : list string :=
  if mem k infos then infos else infos ++ [k].

(** [process(args, log)]: [infos] are the INFO names declared in the header
    of the input, [records] its records; the value is the state of the run
    and what [process] returns ([None] or [1]) or raises. *)
Definition process (infos : list string) (records : list VcfRecord)
    (st : Run) : Run * result (option Z) :=
  let st := log_call INFO (Msg "Read VCF") st in
  let infos := fold_left infos_update mpa_infos infos in
  let st := log_call INFO (Msg "Check vcf annotations") st in
  match check_annotation infos with
  | Raise (SystemExit e) => (log_call ERROR (Msg e) st, Ok (Some 1))
  | Raise e => (st, Raise e)
  | Ok _ =>
      let st := log_call INFO (Msg "Read the each variants") st in
      let '(st, r) := process_records records st in
      (st, bind r (fun _ => Ok None))
  end.

(** The [__main__] block: the value of [process] is not used, and the
    interpreter exits with status 0 unless an exception reaches the top
    level, where it exits with status 1. *)
Definition main (argv : list string) (infos : list string)
    (records : list VcfRecord) : Run * Z :=
  let st := log_call INFO (Msg "Start MPA annotation") run_start in
  let st := log_call INFO (Msg ("Command: " ++ String.concat " " argv)) st in
  match process infos records st with
  | (st, Ok _) => (log_call INFO (Msg "End MPA annotation") st, 0)
  | (st, Raise _) => (st, 1)
  end.

(** ** Locating a program: [wich] and [getSoftwarePath] *)

(** What these two functions can raise: [None.split] in [wich] and the
    [Exception] of [getSoftwarePath]. *)
Inductive envexc : Type :=
| AttributeError (msg : string)
| PyException (msg : string).

Definition starts_with_sep (s : string) : bool :=
  match s with
  | String c _ => Ascii.eqb c "/"
  | EmptyString => false
  end.

Fixpoint ends_with_sep (s : string) : bool :=
  match s with
  | EmptyString => false
  | String c EmptyString => Ascii.eqb c "/"
  | String _ s' => ends_with_sep s'
  end.

(** [os.path.join(a, b)] on POSIX (the script runs under [/usr/bin/env]). *)
Definition path_join (a b : string) : string :=
  if starts_with_sep b then b
  else if String.eqb a "" || ends_with_sep a then a ++ b
  else a ++ "/" ++ b.

(** [wich(software)]: [PATH] is [os.environ.get('PATH')], [path_exists] is
    [os.path.exists] on the file system of the run; [os.pathsep] is [":"].
    The folders are visited last to first and every hit overwrites
    [soft_path]. *)
Definition wich (path_exists : string -> bool) (PATH : option string)
    (software : string) : envexc + option string :=
  match PATH with
  | None => inl (AttributeError "'NoneType' object has no attribute 'split'")
  | Some folders =>
      inr (fold_left
             (fun soft_path current_folder =>
                let eval_path := path_join current_folder software in
                if path_exists eval_path then Some eval_path else soft_path)
             (rev (Text.split ":" folders)) None)
  end.

Definition getSoftwarePath (path_exists : string -> bool) (PATH : option string)
    (software expected_folder : string) : envexc + string :=
  let path := path_join expected_folder software in
  if negb (path_exists path) then
    match wich path_exists PATH software with
    | inl e => inl e
    | inr None =>
        inl (PyException
               ("The software " ++ software ++ " cannot be found in environment."))
    | inr (Some path) => inr path
    end
  else inr path.

(** * The vocabulary of the properties *)

(** A flag is the rank [n] exactly when [P] holds, and [False] otherwise. *)
Definition fires_when (P : Prop) (n : Z) (v : pyrank) : Prop :=
  (P -> v = PyInt n) /\ (~ P -> v = PyFalse).

(** The score is present and at least [bound]. *)
Definition at_least (x : option float) (bound : float) : Prop :=
  exists v, x = Some v /\ PrimFloat.leb bound v = true.

(** The score is present and below [bound]. *)
Definition below (x : option float) (bound : float) : Prop :=
  exists v, x = Some v /\ PrimFloat.ltb v bound = true.

Definition is_D (impact : option string) : bool :=
  match impact with
  | Some s => String.eqb s "D"
  | None => false
  end.

(** The number of entries of the call set whose value satisfies [f]. *)
Definition count_if (f : option string -> bool) (items : dict (option string)) : Z :=
  Z.of_nat (List.length (filter (fun e => f (snd e)) items)).

(** A score of the output lies between 0 and 10, as an [int] or as a
    [float]. *)
Definition in_0_10 (x : pynum) : Prop :=
  match x with
  | NInt n => 0 <= n <= 10
  | NFloat f => PrimFloat.leb 0 f = true /\ PrimFloat.leb f 10 = true
  end.

Definition ratio (d a : Z) : float := (py_float d / py_float a * 10)%float.

Definition ratio_in_range (d a : Z) : bool :=
  PrimFloat.leb 0 (ratio d a) && PrimFloat.leb (ratio d a) 10.

Definition five_of_ten : dict (option string) :=
  [ ("SIFT", Some "D"); ("HDIV", Some "D"); ("HVAR", Some "D");
    ("LRT", Some "D"); ("MutationTaster", Some "D");
    ("FATHMM", Some "T"); ("PROVEAN", Some "N"); ("MKL", Some "N");
    ("SVM", Some "T"); ("LR", Some "T") ].

(** The flags mapping when the functional-region field holds a text. *)
Definition flags_of (clinvar splice : pyrank) (exonicFunc : option string) : dict pyrank :=
  match exonicFunc with
  | Some e =>
      [ ("clinvar_pathogenicity", clinvar);
        ("splice_impact", splice);
        ("stop_impact", is_stop_impact e);
        ("frameshift_impact", is_frameshift_impact e);
        ("unknown_impact", is_unknown_impact e);
        ("missense_impact", is_missense_impact e) ]
  | None =>
      [ ("clinvar_pathogenicity", clinvar);
        ("splice_impact", splice);
        ("stop_impact", PyFalse);
        ("frameshift_impact", PyFalse);
        ("unknown_impact", PyFalse) ]
  end.

(** The flag of category [c] is rank [n] exactly when [P] holds. *)
Definition flag_fires (meta : dict pyrank) (c : string) (P : Prop) (n : Z) : Prop :=
  exists v, dict_get meta c = Some v /\ fires_when P n v.

(** Category [c] has the flag [v] in the mapping, and it fired. *)
Definition fired (meta : dict pyrank) (c : string) (v : pyrank) : Prop :=
  In (c, v) meta /\ truthy v = true.

(** The score the loop assigns when category [c] takes the lead. *)
Definition score_for (adjusted_value : pynum) (c : string) : pynum :=
  if String.eqb c "unknown_impact" || String.eqb c "missense_impact"
  then adjusted_value
  else NInt 10.

(** The names of the fired categories in the order of the mapping. *)
Definition fired_names (meta : dict pyrank) : list string :=
  map fst (filter (fun e => truthy (snd e)) meta).

(** Each name followed by a comma, as the loop accumulates them. *)
Fixpoint with_commas (names : list string) : string :=
  match names with
  | [] => ""
  | c :: names' => c ++ "," ++ with_commas names'
  end.

(** What holds of the loop variables once the entries [seen] are done. *)
Definition rank_invariant (adjusted_value : pynum) (seen : dict pyrank) (st : Ranking) : Prop :=
  impact_text st = with_commas (fired_names seen) /\
  (((forall c v, ~ fired seen c v) /\
    rank st = PyFalse /\ final_score st = None)
   \/
   ((exists c, fired seen c (rank st) /\
               final_score st = Some (score_for adjusted_value c)) /\
    (forall c v, fired seen c v -> int_of (rank st) <= int_of v))).

(** Three records used below: a missense variant with five "D" calls out of
    ten, a ClinVar pathogenic variant with ten "D" calls, and an intergenic
    variant without any annotation. *)
Definition record_missense : VcfRecord :=
  {| REF := "A"; ALT := ["G"]; is_indel := false;
     SIFT_pred := Some "D"; Polyphen2_HDIV_pred := Some "D";
     Polyphen2_HVAR_pred := Some "D"; LRT_pred := Some "D";
     MutationTaster_pred := Some "D"; FATHMM_pred := Some "T";
     PROVEAN_pred := Some "N"; fathmm_MKL_coding_pred := Some "N";
     MetaSVM_pred := Some "T"; MetaLR_pred := Some "T";
     dbscSNV_ADA_SCORE := None; dbscSNV_RF_SCORE := None; dpsi_zscore := None;
     CLNSIG := None; Func_refGene := Some "exonic";
     ExonicFunc_refGene := Some "nonsynonymous_SNV" |}.

Definition record_clinvar : VcfRecord :=
  {| REF := "C"; ALT := ["T"]; is_indel := false;
     SIFT_pred := Some "D"; Polyphen2_HDIV_pred := Some "D";
     Polyphen2_HVAR_pred := Some "D"; LRT_pred := Some "D";
     MutationTaster_pred := Some "D"; FATHMM_pred := Some "D";
     PROVEAN_pred := Some "D"; fathmm_MKL_coding_pred := Some "D";
     MetaSVM_pred := Some "D"; MetaLR_pred := Some "D";
     dbscSNV_ADA_SCORE := None; dbscSNV_RF_SCORE := None; dpsi_zscore := None;
     CLNSIG := Some "Pathogenic"; Func_refGene := Some "exonic";
     ExonicFunc_refGene := Some "nonsynonymous_SNV" |}.

Definition record_intergenic : VcfRecord :=
  {| REF := "G"; ALT := ["A"]; is_indel := false;
     SIFT_pred := None; Polyphen2_HDIV_pred := None;
     Polyphen2_HVAR_pred := None; LRT_pred := None;
     MutationTaster_pred := None; FATHMM_pred := None;
     PROVEAN_pred := None; fathmm_MKL_coding_pred := None;
     MetaSVM_pred := None; MetaLR_pred := None;
     dbscSNV_ADA_SCORE := None; dbscSNV_RF_SCORE := None; dpsi_zscore := None;
     CLNSIG := None; Func_refGene := Some "intergenic";
     ExonicFunc_refGene := None |}.

Definition flags_missense : dict pyrank :=
  [ ("clinvar_pathogenicity", PyFalse); ("splice_impact", PyFalse);
    ("stop_impact", PyFalse); ("frameshift_impact", PyFalse);
    ("unknown_impact", PyFalse); ("missense_impact", PyInt 7) ].

Definition annotation_missense : Annotation :=
  {| MPA_adjusted := NFloat 5; MPA_available := 10; MPA_deleterious := 5;
     MPA_final_score := Some (NFloat 5); MPA_impact := "missense_impact";
     MPA_ranking := PyInt 7 |}.

(** The order the claim gives for the names of [MPA_impact]. *)
Definition category_order : list string :=
  [ "clinvar_pathogenicity"; "splice_impact"; "stop_impact";
    "frameshift_impact"; "unknown_impact"; "missense_impact" ].

(** The category is a key of the mapping and its flag is truthy. *)
Definition flag_fired (meta : dict pyrank) (c : string) : bool :=
  match dict_get meta c with
  | Some v => truthy v
  | None => false
  end.

Definition flags_clinvar : dict pyrank :=
  [ ("clinvar_pathogenicity", PyInt 1); ("splice_impact", PyFalse);
    ("stop_impact", PyFalse); ("frameshift_impact", PyFalse);
    ("unknown_impact", PyFalse); ("missense_impact", PyInt 7) ].

Definition flags_intergenic : dict pyrank :=
  [ ("clinvar_pathogenicity", PyFalse); ("splice_impact", PyFalse);
    ("stop_impact", PyFalse); ("frameshift_impact", PyFalse);
    ("unknown_impact", PyFalse) ].

(** The required field names as section 3 of the specification lists them. *)
Definition required_fields : list string :=
  [ "ExonicFunc.refGene"; "Func.refGene"; "CLNSIG"; "SIFT_pred";
    "Polyphen2_HDIV_pred"; "Polyphen2_HVAR_pred"; "LRT_pred";
    "MutationTaster_pred"; "FATHMM_pred"; "PROVEAN_pred";
    "fathmm-MKL_coding_pred"; "MetaSVM_pred"; "MetaLR_pred";
    "dbscSNV_ADA_SCORE"; "dbscSNV_RF_SCORE"; "dpsi_zscore" ].

(** The state in which [process] leaves a run that fails the header check. *)
Definition rejected_run (st : Run) : Run :=
  log_call ERROR (Msg annotation_error)
    (log_call INFO (Msg "Check vcf annotations")
       (log_call INFO (Msg "Read VCF") st)).

(** A header with every required name but CLNSIG. *)
Definition header_without_CLNSIG : list string :=
  [ "ExonicFunc.refGene"; "Func.refGene"; "SIFT_pred";
    "Polyphen2_HDIV_pred"; "Polyphen2_HVAR_pred"; "LRT_pred";
    "MutationTaster_pred"; "FATHMM_pred"; "PROVEAN_pred";
    "fathmm-MKL_coding_pred"; "MetaSVM_pred"; "MetaLR_pred";
    "dbscSNV_ADA_SCORE"; "dbscSNV_RF_SCORE"; "dpsi_zscore" ].

(** The record has several reference alleles or several alternate alleles. *)
Definition multi_allelic (record : VcfRecord) : Prop :=
  (1 < List.length (Text.split "," (REF record)))%nat \/
  (1 < List.length (ALT record))%nat.

(** A record with two alternate alleles. *)
Definition record_two_alts : VcfRecord :=
  {| REF := "A"; ALT := ["G"; "T"]; is_indel := false;
     SIFT_pred := Some "D"; Polyphen2_HDIV_pred := None;
     Polyphen2_HVAR_pred := None; LRT_pred := None;
     MutationTaster_pred := None; FATHMM_pred := None;
     PROVEAN_pred := None; fathmm_MKL_coding_pred := None;
     MetaSVM_pred := None; MetaLR_pred := None;
     dbscSNV_ADA_SCORE := None; dbscSNV_RF_SCORE := None; dpsi_zscore := None;
     CLNSIG := None; Func_refGene := Some "exonic";
     ExonicFunc_refGene := Some "stopgain" |}.

(** The missense record with a null functional-region value ([Func.refGene=.]
    in the file). *)
Definition record_null_func : VcfRecord :=
  {| REF := "A"; ALT := ["G"]; is_indel := false;
     SIFT_pred := Some "D"; Polyphen2_HDIV_pred := Some "D";
     Polyphen2_HVAR_pred := Some "D"; LRT_pred := Some "D";
     MutationTaster_pred := Some "D"; FATHMM_pred := Some "T";
     PROVEAN_pred := Some "N"; fathmm_MKL_coding_pred := Some "N";
     MetaSVM_pred := Some "T"; MetaLR_pred := Some "T";
     dbscSNV_ADA_SCORE := None; dbscSNV_RF_SCORE := None; dpsi_zscore := None;
     CLNSIG := None; Func_refGene := None;
     ExonicFunc_refGene := Some "nonsynonymous_SNV" |}.

(** The record of the exonic example: a stop gain in an exonic region. *)
Definition record_stopgain : VcfRecord :=
  {| REF := "C"; ALT := ["T"]; is_indel := false;
     SIFT_pred := None; Polyphen2_HDIV_pred := None;
     Polyphen2_HVAR_pred := None; LRT_pred := None;
     MutationTaster_pred := Some "D"; FATHMM_pred := None;
     PROVEAN_pred := None; fathmm_MKL_coding_pred := None;
     MetaSVM_pred := None; MetaLR_pred := None;
     dbscSNV_ADA_SCORE := None; dbscSNV_RF_SCORE := None; dpsi_zscore := None;
     CLNSIG := None; Func_refGene := Some "exonic;splicing";
     ExonicFunc_refGene := Some "stopgain" |}.

(** ** Vocabulary of the further properties *)

(** [x <= y] between two scores, each an [int] or a [float]. *)
Definition num_le (x y : pynum) : Prop :=
  match x, y with
  | NInt a, NInt b => a <= b
  | NFloat a, NFloat b => PrimFloat.leb a b = true
  | NInt a, NFloat b => PrimFloat.leb (py_float a) b = true
  | NFloat a, NInt b => PrimFloat.leb a (py_float b) = true
  end.

(** The call set without its null entries. *)
Definition without_nulls (items : dict (option string)) : dict (option string) :=
  filter (fun e => is_some (snd e)) items.

(** A call set in which the ten predictors are given in another order and
    two of them are null. *)
Definition calls_a : dict (option string) :=
  [ ("SIFT", Some "D"); ("HDIV", None); ("HVAR", Some "T"); ("LRT", Some "D");
    ("MutationTaster", Some "D"); ("FATHMM", None); ("PROVEAN", Some "N");
    ("MKL", Some "D"); ("SVM", Some "T"); ("LR", Some "D") ].

Definition calls_b : dict (option string) :=
  [ ("LR", Some "D"); ("SVM", Some "T"); ("MKL", Some "D"); ("PROVEAN", Some "N");
    ("FATHMM", None); ("MutationTaster", Some "D"); ("LRT", Some "D");
    ("HVAR", Some "T"); ("HDIV", None); ("SIFT", Some "D") ].

(** [calls_a] with one more "D" among the same available predictors. *)
Definition calls_c : dict (option string) :=
  [ ("SIFT", Some "D"); ("HDIV", None); ("HVAR", Some "D"); ("LRT", Some "D");
    ("MutationTaster", Some "D"); ("FATHMM", None); ("PROVEAN", Some "N");
    ("MKL", Some "D"); ("SVM", Some "T"); ("LR", Some "D") ].

(** The character [c] occurs in [s]. *)
Definition occurs (c : ascii) (s : string) : Prop :=
  exists a b, s = a ++ String c b.

Fixpoint count_char (c : ascii) (s : string) : nat :=
  match s with
  | EmptyString => 0%nat
  | String c' s' =>
      if Ascii.eqb c' c then S (count_char c s') else count_char c s'
  end.

(** The splice score set with another Zscore entry. *)
Definition with_zscore (sc : SpliceScores) (z : option float) : SpliceScores :=
  {| ADA := ADA sc; RF := RF sc; Zscore := z |}.

(** An ADA score of 0.5, below the threshold, and nothing else. *)
Definition scores_low_ada : SpliceScores :=
  {| ADA := Some 0x1p-1%float; RF := None; Zscore := None |}.

(** An exonic variant of unknown consequence, without any predictor call. *)
Definition record_unknown : VcfRecord :=
  {| REF := "G"; ALT := ["C"]; is_indel := false;
     SIFT_pred := None; Polyphen2_HDIV_pred := None;
     Polyphen2_HVAR_pred := None; LRT_pred := None;
     MutationTaster_pred := None; FATHMM_pred := None;
     PROVEAN_pred := None; fathmm_MKL_coding_pred := None;
     MetaSVM_pred := None; MetaLR_pred := None;
     dbscSNV_ADA_SCORE := None; dbscSNV_RF_SCORE := None; dpsi_zscore := None;
     CLNSIG := None; Func_refGene := Some "exonic";
     ExonicFunc_refGene := Some "unknown" |}.

Definition flags_unknown : dict pyrank :=
  [ ("clinvar_pathogenicity", PyFalse); ("splice_impact", PyFalse);
    ("stop_impact", PyFalse); ("frameshift_impact", PyFalse);
    ("unknown_impact", PyInt 8); ("missense_impact", PyFalse) ].

Definition annotation_unknown : Annotation :=
  {| MPA_adjusted := NInt 0; MPA_available := 0; MPA_deleterious := 0;
     MPA_final_score := Some (NInt 0); MPA_impact := "unknown_impact";
     MPA_ranking := PyInt 8 |}.

(** A flags mapping with a tie at rank 2 after a rank 7: not one a record
    produces, but one [resolve] accepts. *)
Definition flags_tie : dict pyrank :=
  [ ("missense_impact", PyInt 7); ("splice_impact", PyFalse);
    ("stop_impact", PyInt 2); ("unknown_impact", PyInt 2) ].

Definition scores_half : Scores :=
  {| adjusted := NFloat 5; available := 10; deleterious := 5 |}.

(** The record passes [check_split_variants]. *)
Definition passes (record : VcfRecord) : bool :=
  match check_split_variants record with
  | Ok _ => true
  | Raise _ => false
  end.

(** The record stops the loop: it passes the validator and its
    functional-region value is null. *)
Definition stops (record : VcfRecord) : bool :=
  passes record && is_none (Func_refGene record).

(** The two error entries logged for a rejected record, none for another. *)
Definition rejection_log (record : VcfRecord) : list (level * message) :=
  match check_split_variants record with
  | Raise (SystemExit e) => [(ERROR, MsgRecord record); (ERROR, Msg e)]
  | _ => []
  end.

(** What the loop writes for a record: the record with its annotation when
    it passes the validator and is annotated, nothing otherwise. *)
Definition output_of (record : VcfRecord) : list (VcfRecord * Annotation) :=
  if passes record then
    match annotate record with
    | Ok a => [(record, a)]
    | Raise _ => []
    end
  else [].

(** The state after the loop has gone through [records] from [st]. *)
Definition after_records (records : list VcfRecord) (st : Run) : Run :=
  {| log := log st ++ flat_map rejection_log records;
     written := written st ++ flat_map output_of records |}.


(** A file system with one program, and a PATH of three folders. *)
Definition only_annovar (path : string) : bool :=
  String.eqb path "/opt/annovar/table_annovar.pl".

Definition path_three : option string := Some "/usr/bin:/opt/annovar:/bin".

(** * Properties *)

(** ** The search decides containment up to case *)

Module TextFacts.
Import Text.

Lemma append_empty_inv (a b : string) :
  a ++ b = "" -> a = "" /\ b = "".
Proof.
  destruct a; simpl; intro H; [auto | discriminate].
Qed.

Lemma match_here_prefix (pat txt : string) :
  match_here pat txt = true <->
  exists mid post, txt = mid ++ post /\ lower_str mid = lower_str pat.
Proof.
  revert txt.
  induction pat as [| a pat IH]; intro txt.
  - simpl. split; [| reflexivity].
    intros _. exists "", txt. split; reflexivity.
  - destruct txt as [| b txt]; simpl.
    + split; [discriminate |].
      intros (mid & post & Heq & Hlow).
      symmetry in Heq. apply append_empty_inv in Heq.
      destruct Heq as [-> _]. discriminate.
    + rewrite andb_true_iff, Ascii.eqb_eq, IH.
      split.
      * intros [Hc (mid & post & -> & Hlow)].
        exists (String b mid), post. simpl.
        split; [reflexivity |]. rewrite Hlow, Hc. reflexivity.
      * intros (mid & post & Heq & Hlow).
        destruct mid as [| c mid]; simpl in Hlow; [discriminate |].
        simpl in Heq. injection Heq as -> ->.
        injection Hlow as Hc Hlow.
        split; [symmetry; exact Hc |].
        exists mid, post. split; [reflexivity | exact Hlow].
Qed.

Lemma search_ic_contains (pat txt : string) :
  search_ic pat txt = true <-> contains_ic pat txt.
Proof.
  unfold contains_ic.
  induction txt as [| c txt IH].
  - simpl. rewrite orb_false_r, match_here_prefix.
    split.
    + intros (mid & post & Heq & Hlow). exists "", mid, post. auto.
    + intros (pre & mid & post & Heq & Hlow).
      symmetry in Heq. apply append_empty_inv in Heq.
      destruct Heq as [-> Heq]. exists mid, post. auto.
  - simpl. rewrite orb_true_iff, match_here_prefix, IH.
    split.
    + intros [(mid & post & Heq & Hlow) | (pre & mid & post & Heq & Hlow)].
      * exists "", mid, post. auto.
      * exists (String c pre), mid, post. simpl. rewrite Heq. auto.
    + intros (pre & mid & post & Heq & Hlow).
      destruct pre as [| c' pre]; simpl in Heq.
      * left. exists mid, post. auto.
      * right. injection Heq as -> ->. exists pre, mid, post. auto.
Qed.

Lemma search_ic_not_contains (pat txt : string) :
  search_ic pat txt = false <-> ~ contains_ic pat txt.
Proof.
  rewrite <- search_ic_contains.
  destruct (search_ic pat txt); split; intro H;
    try reflexivity; try discriminate.
  exfalso. apply H. reflexivity.
Qed.

Lemma append_assoc (a b c : string) : (a ++ b) ++ c = a ++ b ++ c.
Proof.
  induction a as [| x a IH]; simpl; [reflexivity | now rewrite IH].
Qed.

Lemma append_empty_r (a : string) : a ++ "" = a.
Proof.
  induction a as [| x a IH]; simpl; [reflexivity | now rewrite IH].
Qed.

Lemma drop_last_append (a b : string) :
  b <> "" -> drop_last (a ++ b) = a ++ drop_last b.
Proof.
  intro Hb. induction a as [| c a IH]; [reflexivity |].
  simpl. rewrite IH.
  destruct (a ++ b) eqn:E; [| reflexivity].
  apply append_empty_inv in E. destruct E as [_ E]. contradiction.
Qed.

Lemma drop_last_comma (a : string) : drop_last (a ++ ",") = a.
Proof.
  rewrite drop_last_append by discriminate.
  simpl. induction a as [| c a IH]; simpl; [reflexivity | now rewrite IH].
Qed.

End TextFacts.

(** ** The classifiers *)

Lemma score_ge_at_least (x : option float) (bound : float) :
  score_ge x bound = true <-> at_least x bound.
Proof.
  unfold score_ge, at_least. destruct x as [v |].
  - split.
    + intro H. exists v. auto.
    + intros (v' & Hv & H). injection Hv as ->. exact H.
  - split; [discriminate | intros (v & Hv & _); discriminate].
Qed.

Lemma bool_prop_cases (b : bool) (P : Prop) :
  (b = true <-> P) -> (b = true /\ P) \/ (b = false /\ ~ P).
Proof.
  intros [H1 H2]. destruct b.
  - left. auto.
  - right. split; [reflexivity |]. intro HP. apply H2 in HP. discriminate.
Qed.

Lemma is_stop_impact_fires (e : string) :
  fires_when (Text.contains_ic "stopgain" e \/ Text.contains_ic "stoploss" e)
    2 (is_stop_impact e).
Proof.
  unfold fires_when, is_stop_impact.
  rewrite <- !TextFacts.search_ic_contains.
  destruct (Text.search_ic "stopgain" e), (Text.search_ic "stoploss" e);
    simpl; split; intro H; try reflexivity;
    try (exfalso; apply H; auto; fail);
    try (destruct H; discriminate).
Qed.

Lemma is_frameshift_impact_fires (e : string) :
  fires_when (Text.contains_ic "frameshift" e /\ ~ Text.contains_ic "nonframeshift" e)
    2 (is_frameshift_impact e).
Proof.
  unfold fires_when, is_frameshift_impact.
  rewrite <- TextFacts.search_ic_contains, <- TextFacts.search_ic_not_contains.
  destruct (Text.search_ic "frameshift" e), (Text.search_ic "nonframeshift" e);
    simpl; split; intro H; try reflexivity;
    try (exfalso; apply H; auto; fail);
    try (destruct H; discriminate).
Qed.

Lemma is_missense_impact_fires (e : string) :
  fires_when (Text.contains_ic "nonsynonymous_SNV" e) 7 (is_missense_impact e).
Proof.
  unfold fires_when, is_missense_impact.
  rewrite <- TextFacts.search_ic_contains.
  destruct (Text.search_ic "nonsynonymous_SNV" e);
    simpl; split; intro H; try reflexivity;
    try (exfalso; apply H; auto; fail); try discriminate.
Qed.

Lemma is_unknown_impact_fires (e : string) :
  fires_when (Text.contains_ic "unknown" e) 8 (is_unknown_impact e).
Proof.
  unfold fires_when, is_unknown_impact.
  rewrite <- TextFacts.search_ic_contains.
  destruct (Text.search_ic "unknown" e);
    simpl; split; intro H; try reflexivity;
    try (exfalso; apply H; auto; fail); try discriminate.
Qed.

(** C4. For every clinical-significance input (a string or null),
    [is_clinvar_pathogenic] returns rank 1 if and only if the input is a
    string that contains "pathogenic" and contains neither "benign" nor
    "conflicting", case-insensitively; in every other case, null included,
    it returns [False]. *)
Theorem clinvar_rank_one_iff (clinsig : option string) :
  (is_clinvar_pathogenic clinsig = PyInt 1 <->
     exists s, clinsig = Some s /\
               Text.contains_ic "pathogenic" s /\
               ~ Text.contains_ic "benign" s /\
               ~ Text.contains_ic "conflicting" s)
  /\ (is_clinvar_pathogenic clinsig <> PyInt 1 ->
      is_clinvar_pathogenic clinsig = PyFalse)
  /\ is_clinvar_pathogenic None = PyFalse.
Proof.
  split; [| split; [| reflexivity]].
  - destruct clinsig as [s |]; simpl.
    + pose proof (TextFacts.search_ic_contains "pathogenic" s) as Hp.
      pose proof (TextFacts.search_ic_not_contains "benign" s) as Hb.
      pose proof (TextFacts.search_ic_not_contains "conflicting" s) as Hc.
      split.
      * intro H. exists s. split; [reflexivity |].
        destruct (Text.search_ic "pathogenic" s); [| discriminate].
        destruct (Text.search_ic "benign" s); [discriminate |].
        destruct (Text.search_ic "conflicting" s); [discriminate |].
        repeat split; [apply Hp | apply Hb | apply Hc]; reflexivity.
      * intros (s' & Hs & H1 & H2 & H3). injection Hs as <-.
        apply Hp in H1. apply Hb in H2. apply Hc in H3.
        rewrite H1, H2, H3. reflexivity.
    + split; [discriminate | intros (s & Hs & _); discriminate].
  - destruct clinsig as [s |]; simpl; [| reflexivity].
    destruct (_ && _ && _); [intro H; exfalso; apply H |]; reflexivity.
Qed.

Example clinvar_pathogenic : is_clinvar_pathogenic (Some "Pathogenic") = PyInt 1.
Proof. reflexivity. Qed.

Example clinvar_pathogenic_benign :
  is_clinvar_pathogenic (Some "Pathogenic/Benign") = PyFalse.
Proof. reflexivity. Qed.

Example clinvar_conflicting :
  is_clinvar_pathogenic (Some "Conflicting_interpretations_of_pathogenicity") = PyFalse.
Proof. reflexivity. Qed.

(** C3. For every splice score set, indel flag and functional-region text,
    [is_splice_impact] applies its rules in the order RF (3), ADA (4),
    Zscore with ADA and RF both absent (5), indel in a "splicing" region (6),
    and returns [False] when none applies; RF wins over ADA when both
    qualify. *)
Theorem splice_rules_in_order (sc : SpliceScores) (indel : bool) (text : string) :
  let rf := at_least (RF sc) splice_threshold in
  let ada := at_least (ADA sc) splice_threshold in
  let z := below (Zscore sc) (-2)%float /\ ADA sc = None /\ RF sc = None in
  let home := indel = true /\ Text.contains_ic "splicing" text in
  let r := is_splice_impact sc indel (Some text) in
  (rf -> r = Ok (PyInt 3)) /\
  (~ rf -> ada -> r = Ok (PyInt 4)) /\
  (~ rf -> ~ ada -> z -> r = Ok (PyInt 5)) /\
  (~ rf -> ~ ada -> ~ z -> home -> r = Ok (PyInt 6)) /\
  (~ rf -> ~ ada -> ~ z -> ~ home -> r = Ok PyFalse) /\
  (rf -> ada -> r = Ok (PyInt 3)).
Proof.
  intros rf ada z home r.
  assert (Hz : (match Zscore sc with
                | Some v => is_none (ADA sc) && is_none (RF sc)
                            && PrimFloat.ltb v (-2)%float
                | None => false
                end) = true <-> z).
  { unfold z, below. destruct (Zscore sc) as [v |].
    - rewrite !andb_true_iff. unfold is_none.
      destruct (ADA sc), (RF sc); simpl; split;
        try (intros [[? ?] ?]; discriminate);
        try (intros [_ [? ?]]; discriminate).
      + intros [_ H]. split; [exists v; auto | auto].
      + intros [(v' & Hv & H) _]. injection Hv as ->. auto.
    - split; [discriminate | intros [(v & Hv & _) _]; discriminate]. }
  assert (Hh : indel && Text.search_ic "splicing" text = true <-> home).
  { unfold home. rewrite andb_true_iff, TextFacts.search_ic_contains. tauto. }
  subst r. unfold is_splice_impact. cbn [re_search bind].
  pose proof (bool_prop_cases _ _ (score_ge_at_least (RF sc) splice_threshold)) as Crf.
  pose proof (bool_prop_cases _ _ (score_ge_at_least (ADA sc) splice_threshold)) as Cada.
  pose proof (bool_prop_cases _ _ Hz) as Cz.
  pose proof (bool_prop_cases _ _ Hh) as Ch.
  clear Hz Hh. fold rf in Crf. fold ada in Cada.
  destruct (score_ge (RF sc) splice_threshold);
    destruct (score_ge (ADA sc) splice_threshold);
    destruct (match Zscore sc with Some _ => _ | None => _ end);
    destruct (indel && Text.search_ic "splicing" text);
    destruct Crf as [[? ?] | [? ?]]; try discriminate;
    destruct Cada as [[? ?] | [? ?]]; try discriminate;
    destruct Cz as [[? ?] | [? ?]]; try discriminate;
    destruct Ch as [[? ?] | [? ?]]; try discriminate;
    repeat split; intros; try reflexivity; contradiction.
Qed.

Example splice_rf_wins :
  is_splice_impact {| ADA := Some 0x1.ccccccccccccdp-1%float;  (* 0.9 *)
                      RF := Some 0x1.6666666666666p-1%float;   (* 0.7 *)
                      Zscore := None |}
    false (Some "intronic") = Ok (PyInt 3).
Proof. reflexivity. Qed.

Example splice_zscore_fallback :
  is_splice_impact {| ADA := None; RF := None; Zscore := Some (-3)%float |}
    false (Some "intronic") = Ok (PyInt 5)
  /\ is_splice_impact {| ADA := None; RF := None; Zscore := Some (-1)%float |}
       false (Some "intronic") = Ok PyFalse.
Proof. split; reflexivity. Qed.

(** ** The deleteriousness aggregator *)

Lemma count_impacts_counts (items : dict (option string)) (d a : Z) :
  count_impacts items d a =
  (d + count_if is_D items, a + count_if is_some items).
Proof.
  unfold count_if. revert d a.
  induction items as [| [k impact] items IH]; intros d a.
  - simpl. f_equal; lia.
  - cbn [count_impacts filter snd]. destruct impact as [s |].
    + cbn [is_D is_some]. destruct (String.eqb s "D");
        rewrite IH; cbn [List.length]; f_equal; lia.
    + cbn [is_D is_some]. apply IH.
Qed.

Lemma count_if_bounds (f : option string -> bool) (items : dict (option string)) :
  0 <= count_if f items <= Z.of_nat (List.length items).
Proof.
  unfold count_if. split; [lia |].
  apply inj_le. induction items as [| e items IH]; simpl; [lia |].
  destruct (f (snd e)); simpl; lia.
Qed.

Lemma count_D_le_available (items : dict (option string)) :
  count_if is_D items <= count_if is_some items.
Proof.
  unfold count_if. apply inj_le.
  induction items as [| [k impact] items IH]; simpl; [lia |].
  destruct impact as [s |]; simpl; [| exact IH].
  destruct (String.eqb s "D"); simpl; lia.
Qed.

Lemma forallb_upto (f : Z -> bool) (n : nat) :
  forallb f (map Z.of_nat (seq 0 n)) = true ->
  forall z, 0 <= z < Z.of_nat n -> f z = true.
Proof.
  intros H z Hz. rewrite forallb_forall in H. apply H.
  rewrite <- (Z2Nat.id z) by lia.
  apply in_map, in_seq. lia.
Qed.

(** Every quotient the aggregator can form from at most ten calls, rescaled,
    stays in range in binary64 arithmetic: checked on all of them. *)
Lemma ratio_in_range_upto_10 (d a : Z) :
  0 <= d <= a -> 0 < a <= 10 -> ratio_in_range d a = true.
Proof.
  intros Hd Ha.
  assert (Hall : forallb (fun a' =>
            forallb (fun d' => (a' =? 0) || (a' <? d') || ratio_in_range d' a')
              (map Z.of_nat (seq 0 11)))
            (map Z.of_nat (seq 0 11)) = true) by (vm_compute; reflexivity).
  pose proof (forallb_upto _ _ Hall a ltac:(simpl; lia)) as Hrow.
  cbv beta in Hrow.
  pose proof (forallb_upto _ _ Hrow d ltac:(simpl; lia)) as Hcell.
  cbv beta in Hcell.
  rewrite !orb_true_iff in Hcell.
  destruct Hcell as [[Hzero | Hlt] | Hok]; [| | exact Hok].
  - apply Z.eqb_eq in Hzero. lia.
  - apply Z.ltb_lt in Hlt. lia.
Qed.

(** C2. For every predictor call set of 10 entries,
    [calculate_adjusted_score] returns [deleterious] = the number of entries
    equal to "D", [available] = the number of non-null entries, [adjusted] =
    deleterious / available * 10 when available > 0 and 0 when
    available = 0; so 0 <= deleterious <= available <= 10 and [adjusted] lies
    in [0, 10]. *)
Theorem adjusted_score_counts (scores_impact : dict (option string))
    (Hten : List.length scores_impact = 10%nat) :
  let r := calculate_adjusted_score scores_impact in
  deleterious r = count_if is_D scores_impact /\
  available r = count_if is_some scores_impact /\
  (0 < available r ->
   adjusted r =
   NFloat (py_float (deleterious r) / py_float (available r) * 10)%float) /\
  (available r = 0 -> adjusted r = NInt 0) /\
  0 <= deleterious r <= available r /\
  available r <= 10 /\
  in_0_10 (adjusted r).
Proof.
  unfold calculate_adjusted_score.
  rewrite count_impacts_counts. cbn zeta. rewrite !Z.add_0_l.
  pose proof (count_if_bounds is_D scores_impact) as Hd.
  pose proof (count_if_bounds is_some scores_impact) as Ha.
  pose proof (count_D_le_available scores_impact) as Hda.
  rewrite Hten in Hd, Ha.
  set (d := count_if is_D scores_impact) in *.
  set (a := count_if is_some scores_impact) in *.
  cbn [deleterious available adjusted].
  repeat split; try lia.
  - intro Hpos. apply Z.ltb_lt in Hpos. rewrite Hpos. reflexivity.
  - intro Hzero. rewrite Hzero. reflexivity.
  - destruct (0 <? a) eqn:Hpos; simpl.
    + apply Z.ltb_lt in Hpos.
      pose proof (ratio_in_range_upto_10 d a ltac:(lia) ltac:(lia)) as Hr.
      unfold ratio_in_range, ratio in Hr.
      apply andb_true_iff in Hr. exact Hr.
    + lia.
Qed.

Lemma adjusted_score_counts_witness :
  List.length five_of_ten = 10%nat /\
  adjusted (calculate_adjusted_score five_of_ten) = NFloat 5 /\
  in_0_10 (adjusted (calculate_adjusted_score five_of_ten)).
Proof.
  destruct (adjusted_score_counts five_of_ten eq_refl)
    as (_ & _ & _ & _ & _ & _ & Hrange).
  split; [reflexivity |]. split; [reflexivity | exact Hrange].
Defined.

Example adjusted_no_call :
  calculate_adjusted_score
    [ ("SIFT", None); ("HDIV", None); ("HVAR", None); ("LRT", None);
      ("MutationTaster", None); ("FATHMM", None); ("PROVEAN", None);
      ("MKL", None); ("SVM", None); ("LR", None) ]
  = {| adjusted := NInt 0; available := 0; deleterious := 0 |}.
Proof. reflexivity. Qed.

(** ** The flags [process] builds for a record *)

Lemma is_splice_impact_text (sc : SpliceScores) (indel : bool) (text : string) :
  exists splice,
    is_splice_impact sc indel (Some text) = Ok splice /\
    (splice = PyFalse \/ splice = PyInt 3 \/ splice = PyInt 4 \/
     splice = PyInt 5 \/ splice = PyInt 6).
Proof.
  unfold is_splice_impact. cbn [re_search bind].
  eexists. split; [reflexivity |].
  destruct (score_ge (RF sc) _); [auto |].
  destruct (score_ge (ADA sc) _); [auto |].
  destruct (match Zscore sc with Some _ => _ | None => _ end); [auto 6 |].
  destruct (indel && _); auto 6.
Qed.

Lemma classify_text (record : VcfRecord) (text : string) :
  Func_refGene record = Some text ->
  exists splice,
    is_splice_impact (splices_scores record) (is_indel record) (Some text)
      = Ok splice /\
    classify record =
    Ok (flags_of (is_clinvar_pathogenic (CLNSIG record)) splice
          (if Text.search_ic "exonic" text
           then ExonicFunc_refGene record else None)).
Proof.
  intro Hfunc.
  destruct (is_splice_impact_text (splices_scores record) (is_indel record) text)
    as (splice & Hsplice & _).
  exists splice. split; [exact Hsplice |].
  unfold classify. rewrite Hfunc, Hsplice. cbn [re_search bind].
  destruct (if Text.search_ic "exonic" text then _ else _) as [e |];
    reflexivity.
Qed.

Lemma classify_null_func (record : VcfRecord) :
  Func_refGene record = None ->
  classify record = Raise (TypeError "expected string or bytes-like object").
Proof.
  intro Hfunc. unfold classify, is_splice_impact.
  rewrite Hfunc. reflexivity.
Qed.

(** C5. For every record (whose functional-region field is a text), the
    four exonic sub-classifications -- stop 2 on "stopgain" or "stoploss",
    frameshift 2 on "frameshift" without "nonframeshift", missense 7 on
    "nonsynonymous_SNV", unknown 8 on "unknown", all case-insensitive -- are
    computed only when the functional-region text contains "exonic" and the
    exonic-function field is non-null; otherwise the stop, frameshift and
    unknown flags are [False] and the missense flag is absent. *)
Theorem exonic_flags_only_when_exonic (record : VcfRecord) (text : string)
    (Hfunc : Func_refGene record = Some text) :
  exists meta,
    classify record = Ok meta /\
    (forall e,
        Text.contains_ic "exonic" text ->
        ExonicFunc_refGene record = Some e ->
        flag_fires meta "stop_impact"
          (Text.contains_ic "stopgain" e \/ Text.contains_ic "stoploss" e) 2 /\
        flag_fires meta "frameshift_impact"
          (Text.contains_ic "frameshift" e /\
           ~ Text.contains_ic "nonframeshift" e) 2 /\
        flag_fires meta "missense_impact"
          (Text.contains_ic "nonsynonymous_SNV" e) 7 /\
        flag_fires meta "unknown_impact"
          (Text.contains_ic "unknown" e) 8) /\
    (~ Text.contains_ic "exonic" text \/ ExonicFunc_refGene record = None ->
        dict_get meta "stop_impact" = Some PyFalse /\
        dict_get meta "frameshift_impact" = Some PyFalse /\
        dict_get meta "unknown_impact" = Some PyFalse /\
        dict_get meta "missense_impact" = None).
Proof.
  destruct (classify_text record text Hfunc) as (splice & _ & Hmeta).
  eexists. split; [exact Hmeta |].
  split.
  - intros e Hexonic He.
    apply TextFacts.search_ic_contains in Hexonic.
    rewrite Hexonic, He. unfold flag_fires. cbn [flags_of].
    repeat split.
    + exists (is_stop_impact e). split; [reflexivity |].
      apply is_stop_impact_fires.
    + exists (is_frameshift_impact e). split; [reflexivity |].
      apply is_frameshift_impact_fires.
    + exists (is_missense_impact e). split; [reflexivity |].
      apply is_missense_impact_fires.
    + exists (is_unknown_impact e). split; [reflexivity |].
      apply is_unknown_impact_fires.
  - intros [Hno | Hnull].
    + apply TextFacts.search_ic_not_contains in Hno. rewrite Hno.
      repeat split; reflexivity.
    + rewrite Hnull.
      destruct (Text.search_ic "exonic" text); repeat split; reflexivity.
Qed.

Lemma exonic_flags_only_when_exonic_witness :
  Func_refGene record_stopgain = Some "exonic;splicing" /\
  exists meta,
    classify record_stopgain = Ok meta /\
    dict_get meta "stop_impact" = Some (PyInt 2) /\
    dict_get meta "missense_impact" = Some PyFalse.
Proof.
  split; [reflexivity |].
  destruct (exonic_flags_only_when_exonic record_stopgain "exonic;splicing"
              eq_refl) as (meta & Hmeta & _ & _).
  exists meta. split; [exact Hmeta |].
  assert (Hflags : Ok meta = classify record_stopgain)
    by (symmetry; exact Hmeta).
  injection Hflags as ->. split; reflexivity.
Defined.

(** ** The ranking loop *)

Section RankLoop.

Variable adjusted_value : pynum.

Lemma with_commas_app (a b : list string) :
  with_commas (a ++ b)%list = with_commas a ++ with_commas b.
Proof.
  induction a as [| c a IH]; simpl; [reflexivity |].
  rewrite IH, !TextFacts.append_assoc. reflexivity.
Qed.

Lemma fired_names_app (a b : dict pyrank) :
  fired_names (a ++ b)%list = (fired_names a ++ fired_names b)%list.
Proof.
  unfold fired_names. rewrite filter_app, map_app. reflexivity.
Qed.

Lemma fired_app (seen : dict pyrank) (e : string * pyrank) (c : string) (v : pyrank) :
  fired (seen ++ [e])%list c v <->
  fired seen c v \/ (e = (c, v) /\ truthy v = true).
Proof.
  unfold fired. rewrite in_app_iff. simpl. tauto.
Qed.

Lemma rank_invariant_start : rank_invariant adjusted_value [] ranking_start.
Proof.
  split; [reflexivity |].
  left. split; [| split; reflexivity].
  intros c v [[] _].
Qed.

Lemma rank_step_invariant (seen : dict pyrank) (st : Ranking)
    (e : string * pyrank) :
  rank_invariant adjusted_value seen st ->
  rank_invariant adjusted_value (seen ++ [e])%list (rank_step adjusted_value st e).
Proof.
  intros [Htext Hrank]. destruct e as [c v].
  unfold rank_invariant, rank_step.
  rewrite fired_names_app, with_commas_app.
  unfold fired_names at 2. cbn [filter snd].
  destruct (truthy v) eqn:Hv.
  - (* the category fired *)
    assert (Hnew : impact_text st ++ c ++ ","
                   = with_commas (fired_names seen) ++ with_commas (map fst [(c, v)])).
    { rewrite Htext. simpl. reflexivity. }
    destruct Hrank as [(Hnone & Hr & Hf) | ((c0 & Hc0 & Hf) & Hmin)].
    + (* it is the first one *)
      rewrite Hr. cbn [truthy negb]. rewrite orb_true_r.
      cbn [rank impact_text final_score].
      split; [exact Hnew |]. right. split.
      * exists c. split; [| reflexivity].
        apply fired_app. right. auto.
      * intros c' v' Hc'. apply fired_app in Hc'.
        destruct Hc' as [Hc' | [Heq _]].
        -- exfalso. exact (Hnone _ _ Hc').
        -- injection Heq as _ <-. lia.
    + (* a leader exists already *)
      assert (Htr : truthy (rank st) = true) by (destruct Hc0; assumption).
      rewrite Htr. cbn [negb]. rewrite orb_false_r. unfold py_lt.
      destruct (int_of v <? int_of (rank st)) eqn:Hlt;
        cbn [rank impact_text final_score].
      * apply Z.ltb_lt in Hlt.
        split; [exact Hnew |]. right. split.
        -- exists c. split; [| reflexivity].
           apply fired_app. right. auto.
        -- intros c' v' Hc'. apply fired_app in Hc'.
           destruct Hc' as [Hc' | [Heq _]].
           ++ specialize (Hmin _ _ Hc'). lia.
           ++ injection Heq as _ <-. lia.
      * apply Z.ltb_ge in Hlt.
        split; [exact Hnew |]. right. split.
        -- exists c0. split; [| exact Hf].
           apply fired_app. left. exact Hc0.
        -- intros c' v' Hc'. apply fired_app in Hc'.
           destruct Hc' as [Hc' | [Heq _]].
           ++ exact (Hmin _ _ Hc').
           ++ injection Heq as _ <-. exact Hlt.
  - (* the flag is falsy: nothing changes *)
    cbn [map with_commas]. rewrite TextFacts.append_empty_r.
    split; [exact Htext |].
    assert (Hsame : forall c' v', fired (seen ++ [(c, v)])%list c' v' <-> fired seen c' v').
    { intros c' v'. rewrite fired_app. split; [| auto].
      intros [H | [Heq Hv']]; [exact H |].
      injection Heq as _ <-. rewrite Hv in Hv'. discriminate. }
    destruct Hrank as [(Hnone & Hr & Hf) | ((c0 & Hc0 & Hf) & Hmin)].
    + left. split; [| auto].
      intros c' v' H. apply Hsame in H. exact (Hnone _ _ H).
    + right. split.
      * exists c0. split; [apply Hsame; exact Hc0 | exact Hf].
      * intros c' v' H. apply Hsame in H. exact (Hmin _ _ H).
Qed.

Lemma fold_rank_invariant (rest seen : dict pyrank) (st : Ranking) :
  rank_invariant adjusted_value seen st ->
  rank_invariant adjusted_value (seen ++ rest)%list
    (fold_left (rank_step adjusted_value) rest st).
Proof.
  revert seen st.
  induction rest as [| e rest IH]; intros seen st Hinv.
  - rewrite app_nil_r. exact Hinv.
  - cbn [fold_left].
    replace (seen ++ e :: rest)%list with ((seen ++ [e]) ++ rest)%list
      by (rewrite <- app_assoc; reflexivity).
    apply IH, rank_step_invariant, Hinv.
Qed.

Lemma rank_loop_invariant (meta : dict pyrank) :
  rank_invariant adjusted_value meta (rank_loop adjusted_value meta).
Proof.
  apply (fold_rank_invariant meta [] ranking_start), rank_invariant_start.
Qed.

End RankLoop.

(** ** The ranking resolver on any flags mapping *)

Lemma with_commas_nonempty (names : list string) :
  names <> [] -> with_commas names <> "".
Proof.
  destruct names as [| c names]; [contradiction |].
  intros _ H. simpl in H.
  apply TextFacts.append_empty_inv in H. destruct H as [_ H]. discriminate.
Qed.

Lemma drop_last_with_commas (names : list string) :
  names <> [] ->
  Text.drop_last (with_commas names) = String.concat "," names.
Proof.
  induction names as [| c names IH]; [contradiction |].
  intros _. destruct names as [| c' names].
  - cbn [with_commas String.concat]. apply TextFacts.drop_last_comma.
  - assert (Hne : with_commas (c' :: names) <> "")
      by (apply with_commas_nonempty; discriminate).
    cbn [with_commas String.concat] in *.
    rewrite TextFacts.drop_last_append by discriminate.
    rewrite (TextFacts.drop_last_append ",") by exact Hne.
    rewrite IH by discriminate. reflexivity.
Qed.

Lemma fired_names_nil (meta : dict pyrank) :
  fired_names meta = [] <-> (forall c v, ~ fired meta c v).
Proof.
  unfold fired_names, fired. split.
  - intros H c v [Hin Hv].
    assert (Hf : In (c, v) (filter (fun e => truthy (snd e)) meta))
      by (apply filter_In; auto).
    apply (in_map fst) in Hf. rewrite H in Hf. exact Hf.
  - intro H. induction meta as [| [c v] meta IH]; [reflexivity |].
    cbn [filter snd]. destruct (truthy v) eqn:Hv.
    + exfalso. apply (H c v). split; [left; reflexivity | exact Hv].
    + apply IH. intros c' v' [Hin Hv']. apply (H c' v').
      split; [right; exact Hin | exact Hv'].
Qed.

(** The resolver on an arbitrary flags mapping: the rank is the least fired
    flag, the score is the one of the category that took the lead, and the
    impact text is the comma-joined list of the fired names; with no fired
    flag the defaults apply. *)
Lemma resolve_spec (scores : Scores) (meta : dict pyrank) :
  let out := resolve scores meta in
  (fired_names meta = [] ->
     MPA_ranking out = PyInt 8 /\
     MPA_impact out = "NULL" /\
     MPA_final_score out = Some (adjusted scores)) /\
  (fired_names meta <> [] ->
     (exists c, fired meta c (MPA_ranking out) /\
                MPA_final_score out = Some (score_for (adjusted scores) c)) /\
     (forall c v, fired meta c v -> int_of (MPA_ranking out) <= int_of v) /\
     MPA_impact out = String.concat "," (fired_names meta)).
Proof.
  cbv zeta. unfold resolve.
  destruct (rank_loop_invariant (adjusted scores) meta)
    as [Htext [(Hnone & Hr & Hf) | ((c0 & Hc0 & Hf) & Hmin)]].
  - rewrite Hr. cbn [truthy negb rank impact_text final_score
                     MPA_ranking MPA_impact MPA_final_score].
    split; [intros _; repeat split |].
    intro Hne. exfalso. apply Hne, fired_names_nil, Hnone.
  - assert (Htr : truthy (rank (rank_loop (adjusted scores) meta)) = true)
      by (destruct Hc0; assumption).
    rewrite Htr. cbn [negb MPA_ranking MPA_impact MPA_final_score].
    split.
    + intro Hnil. exfalso.
      exact (proj1 (fired_names_nil meta) Hnil _ _ Hc0).
    + intro Hne. split; [exists c0; auto |]. split; [exact Hmin |].
      rewrite Htext. apply drop_last_with_commas, Hne.
Qed.

(** ** The flags of a record and their ranks *)

Lemma is_clinvar_pathogenic_values (clinsig : option string) :
  is_clinvar_pathogenic clinsig = PyFalse \/
  is_clinvar_pathogenic clinsig = PyInt 1.
Proof.
  destruct clinsig as [s |]; simpl; [| auto].
  destruct (_ && _ && _); auto.
Qed.

(** In the flags of a record, rank 7 belongs to the missense category only,
    rank 8 to the unknown category only, and every other fired category has
    a rank from 1 to 6. *)
Lemma flags_of_classes (clinvar splice : pyrank) (exonicFunc : option string)
    (c : string) (v : pyrank) :
  clinvar = PyFalse \/ clinvar = PyInt 1 ->
  splice = PyFalse \/ splice = PyInt 3 \/ splice = PyInt 4 \/
    splice = PyInt 5 \/ splice = PyInt 6 ->
  fired (flags_of clinvar splice exonicFunc) c v ->
  (c = "missense_impact" /\ v = PyInt 7) \/
  (c = "unknown_impact" /\ v = PyInt 8) \/
  (c <> "missense_impact" /\ c <> "unknown_impact" /\ 1 <= int_of v <= 6).
Proof.
  intros Hclinvar Hsplice [Hin Hv].
  assert (Hlow : forall name : string,
             name <> "missense_impact" -> name <> "unknown_impact" ->
             c = name -> 1 <= int_of v <= 6 ->
             (c = "missense_impact" /\ v = PyInt 7) \/
             (c = "unknown_impact" /\ v = PyInt 8) \/
             (c <> "missense_impact" /\ c <> "unknown_impact" /\
              1 <= int_of v <= 6)).
  { intros name H1 H2 -> H3. right. right. auto. }
  destruct exonicFunc as [e |]; cbn [flags_of In] in Hin;
    repeat (destruct Hin as [Hin | Hin]); try contradiction;
    injection Hin as <- <-.
  - apply (Hlow "clinvar_pathogenicity"); try discriminate; try reflexivity.
    destruct Hclinvar as [-> | ->]; simpl in *; [discriminate | lia].
  - apply (Hlow "splice_impact"); try discriminate; try reflexivity.
    destruct Hsplice as [-> | [-> | [-> | [-> | ->]]]]; simpl in *;
      try discriminate; lia.
  - apply (Hlow "stop_impact"); try discriminate; try reflexivity.
    unfold is_stop_impact in *. destruct (_ || _); simpl in *;
      [lia | discriminate].
  - apply (Hlow "frameshift_impact"); try discriminate; try reflexivity.
    unfold is_frameshift_impact in *. destruct (_ && _); simpl in *;
      [lia | discriminate].
  - right. left. split; [reflexivity |].
    unfold is_unknown_impact in *.
    destruct (Text.search_ic "unknown" e); [reflexivity | discriminate].
  - left. split; [reflexivity |].
    unfold is_missense_impact in *.
    destruct (Text.search_ic "nonsynonymous_SNV" e); [reflexivity | discriminate].
  - apply (Hlow "clinvar_pathogenicity"); try discriminate; try reflexivity.
    destruct Hclinvar as [-> | ->]; simpl in *; [discriminate | lia].
  - apply (Hlow "splice_impact"); try discriminate; try reflexivity.
    destruct Hsplice as [-> | [-> | [-> | [-> | ->]]]]; simpl in *;
      try discriminate; lia.
  - discriminate.
  - discriminate.
  - discriminate.
Qed.

(** Two fired categories of a record with the same rank get the same score. *)
Lemma same_rank_same_score (adjusted_value : pynum) (c c0 : string) (v : pyrank) :
  (c = "missense_impact" /\ v = PyInt 7) \/
  (c = "unknown_impact" /\ v = PyInt 8) \/
  (c <> "missense_impact" /\ c <> "unknown_impact" /\ 1 <= int_of v <= 6) ->
  (c0 = "missense_impact" /\ v = PyInt 7) \/
  (c0 = "unknown_impact" /\ v = PyInt 8) \/
  (c0 <> "missense_impact" /\ c0 <> "unknown_impact" /\ 1 <= int_of v <= 6) ->
  score_for adjusted_value c = score_for adjusted_value c0.
Proof.
  unfold score_for.
  intros [[-> ->] | [[-> ->] | (Hm & Hu & Hv)]]
         [[-> Hv0] | [[-> Hv0] | (Hm0 & Hu0 & Hv0)]];
    subst; try discriminate; try reflexivity; simpl in *; try lia.
  apply String.eqb_neq in Hm, Hu, Hm0, Hu0.
  rewrite Hm, Hu, Hm0, Hu0. reflexivity.
Qed.

(** ** The ranking resolver on the records of a file *)

(** The flags of a processed record are those of [flags_of], with a ClinVar
    flag in {False, 1} and a splice flag in {False, 3, 4, 5, 6}. *)
Lemma classify_flags (record : VcfRecord) (meta : dict pyrank) :
  classify record = Ok meta ->
  exists clinvar splice exonicFunc,
    meta = flags_of clinvar splice exonicFunc /\
    (clinvar = PyFalse \/ clinvar = PyInt 1) /\
    (splice = PyFalse \/ splice = PyInt 3 \/ splice = PyInt 4 \/
     splice = PyInt 5 \/ splice = PyInt 6).
Proof.
  intro Hmeta.
  destruct (Func_refGene record) as [text |] eqn:Hfunc;
    [| rewrite (classify_null_func record Hfunc) in Hmeta; discriminate].
  destruct (classify_text record text Hfunc) as (splice & Hsplice & Hflags).
  destruct (is_splice_impact_text (splices_scores record) (is_indel record) text)
    as (splice' & Hsplice' & Hvalues).
  rewrite Hsplice in Hsplice'. injection Hsplice' as <-.
  rewrite Hflags in Hmeta. injection Hmeta as <-.
  do 3 eexists. split; [reflexivity |].
  split; [apply is_clinvar_pathogenic_values | exact Hvalues].
Qed.

(** C1. For every processed record, [MPA_ranking] is the minimum rank among
    the categories that fired; [MPA_final_score] equals the adjusted score
    when the winning (minimum-rank) category is missense_impact or
    unknown_impact and 10 for every other winning category; and when no
    category fired, [MPA_ranking] = 8, [MPA_impact] = "NULL" and
    [MPA_final_score] = adjusted. *)
Theorem ranking_resolver (record : VcfRecord) (meta : dict pyrank)
    (out : Annotation)
    (Hmeta : classify record = Ok meta)
    (Hout : annotate record = Ok out) :
  MPA_adjusted out = adjusted (calculate_adjusted_score (impacts_scores record)) /\
  ((exists c v, fired meta c v) ->
     (exists c, fired meta c (MPA_ranking out)) /\
     (forall c v, fired meta c v -> int_of (MPA_ranking out) <= int_of v) /\
     (forall c, fired meta c (MPA_ranking out) ->
        (c = "missense_impact" \/ c = "unknown_impact" ->
         MPA_final_score out = Some (MPA_adjusted out)) /\
        (c <> "missense_impact" -> c <> "unknown_impact" ->
         MPA_final_score out = Some (NInt 10)))) /\
  ((forall c v, ~ fired meta c v) ->
     MPA_ranking out = PyInt 8 /\
     MPA_impact out = "NULL" /\
     MPA_final_score out = Some (MPA_adjusted out)).
Proof.
  unfold annotate in Hout. rewrite Hmeta in Hout. cbn [bind] in Hout.
  injection Hout as <-.
  set (scores := calculate_adjusted_score (impacts_scores record)).
  destruct (resolve_spec scores meta) as [Hnil Hcons].
  split; [reflexivity |]. split.
  - intros (c1 & v1 & Hfired1).
    assert (Hne : fired_names meta <> []).
    { intro H. exact (proj1 (fired_names_nil meta) H _ _ Hfired1). }
    destruct (Hcons Hne) as ((c0 & Hc0 & Hscore) & Hmin & _).
    split; [exists c0; exact Hc0 |]. split; [exact Hmin |].
    intros c Hc.
    destruct (classify_flags record meta Hmeta)
      as (clinvar & splice & ex & -> & Hclinvar & Hsplice).
    pose proof (flags_of_classes _ _ _ _ _ Hclinvar Hsplice Hc) as Hclass.
    pose proof (flags_of_classes _ _ _ _ _ Hclinvar Hsplice Hc0) as Hclass0.
    rewrite Hscore, <- (same_rank_same_score (adjusted scores) c c0 _ Hclass Hclass0).
    unfold score_for. cbn [MPA_adjusted resolve]. split.
    + intros [-> | ->]; reflexivity.
    + intros Hm Hu. apply String.eqb_neq in Hm, Hu. rewrite Hm, Hu. reflexivity.
  - intro Hnone. apply Hnil, fired_names_nil, Hnone.
Qed.

Lemma ranking_resolver_witness :
  classify record_missense = Ok flags_missense /\
  annotate record_missense = Ok annotation_missense /\
  fired flags_missense "missense_impact" (PyInt 7) /\
  MPA_final_score annotation_missense = Some (MPA_adjusted annotation_missense).
Proof.
  assert (Hmeta : classify record_missense = Ok flags_missense) by reflexivity.
  assert (Hout : annotate record_missense = Ok annotation_missense) by reflexivity.
  assert (Hfired : fired flags_missense "missense_impact" (PyInt 7)).
  { split; [| reflexivity]. do 5 right. left. reflexivity. }
  split; [exact Hmeta |]. split; [exact Hout |]. split; [exact Hfired |].
  destruct (ranking_resolver record_missense flags_missense annotation_missense
              Hmeta Hout) as (_ & Hsome & _).
  destruct Hsome as (_ & _ & Hscore).
  - exists "missense_impact", (PyInt 7). exact Hfired.
  - destruct (Hscore "missense_impact" Hfired) as [H _].
    apply H. left. reflexivity.
Defined.

Example end_to_end_clinvar :
  annotate record_clinvar =
  Ok {| MPA_adjusted := NFloat 10; MPA_available := 10; MPA_deleterious := 10;
        MPA_final_score := Some (NInt 10);
        MPA_impact := "clinvar_pathogenicity,missense_impact";
        MPA_ranking := PyInt 1 |}.
Proof. reflexivity. Qed.

Example end_to_end_none :
  annotate record_intergenic =
  Ok {| MPA_adjusted := NInt 0; MPA_available := 0; MPA_deleterious := 0;
        MPA_final_score := Some (NInt 0);
        MPA_impact := "NULL";
        MPA_ranking := PyInt 8 |}.
Proof. reflexivity. Qed.

(** ** The impact field *)

Lemma fired_names_in_order (clinvar splice : pyrank) (exonicFunc : option string) :
  fired_names (flags_of clinvar splice exonicFunc) =
  filter (flag_fired (flags_of clinvar splice exonicFunc)) category_order.
Proof.
  destruct exonicFunc as [e |]; cbn [flags_of].
  - generalize (is_stop_impact e) (is_frameshift_impact e)
               (is_unknown_impact e) (is_missense_impact e).
    intros s f u m. unfold fired_names, flag_fired, category_order.
    cbn [filter snd map fst dict_get String.eqb Ascii.eqb Bool.eqb].
    destruct (truthy clinvar), (truthy splice), (truthy s), (truthy f),
      (truthy u), (truthy m); reflexivity.
  - unfold fired_names, flag_fired, category_order.
    cbn [filter snd map fst dict_get String.eqb Ascii.eqb Bool.eqb truthy].
    destruct (truthy clinvar), (truthy splice); reflexivity.
Qed.

(** C10, as the code has it. For every processed record in which at least
    one category fired, [MPA_impact] is the comma-joined list (no trailing
    comma) of the names of the fired categories in the order
    clinvar_pathogenicity, splice_impact, stop_impact, frameshift_impact,
    unknown_impact, missense_impact (missense_impact last); when no category
    fired it is "NULL". *)
Theorem impact_lists_fired_in_order (record : VcfRecord) (meta : dict pyrank)
    (out : Annotation)
    (Hmeta : classify record = Ok meta)
    (Hout : annotate record = Ok out) :
  let names := filter (flag_fired meta) category_order in
  (names <> [] -> MPA_impact out = String.concat "," names) /\
  (names = [] -> MPA_impact out = "NULL").
Proof.
  cbv zeta.
  unfold annotate in Hout. rewrite Hmeta in Hout. cbn [bind] in Hout.
  injection Hout as <-.
  destruct (classify_flags record meta Hmeta)
    as (clinvar & splice & ex & -> & _ & _).
  rewrite <- fired_names_in_order.
  destruct (resolve_spec (calculate_adjusted_score (impacts_scores record))
              (flags_of clinvar splice ex)) as [Hnil Hcons].
  split.
  - intro Hne. apply Hcons, Hne.
  - intro Hnone. apply Hnil, Hnone.
Qed.

Lemma impact_lists_fired_in_order_witness :
  classify record_clinvar = Ok flags_clinvar /\
  filter (flag_fired flags_clinvar) category_order
    = ["clinvar_pathogenicity"; "missense_impact"] /\
  exists out,
    annotate record_clinvar = Ok out /\
    MPA_impact out = "clinvar_pathogenicity,missense_impact".
Proof.
  assert (Hmeta : classify record_clinvar = Ok flags_clinvar) by reflexivity.
  split; [exact Hmeta |]. split; [reflexivity |].
  eexists. split; [reflexivity |].
  destruct (impact_lists_fired_in_order record_clinvar flags_clinvar _
              Hmeta eq_refl) as [Hsome _].
  apply Hsome. discriminate.
Defined.

(** C10 as stated fails on a record in which no category fired: the
    comma-joined list of the fired names is empty, the field is "NULL". *)
Lemma impact_null_when_none_fired :
  classify record_intergenic = Ok flags_intergenic /\
  filter (flag_fired flags_intergenic) category_order = [] /\
  exists out,
    annotate record_intergenic = Ok out /\
    MPA_impact out = "NULL" /\
    MPA_impact out <>
    String.concat "," (filter (flag_fired flags_intergenic) category_order).
Proof.
  split; [reflexivity |]. split; [reflexivity |].
  eexists. split; [reflexivity |]. split; [reflexivity | discriminate].
Qed.

(** ** The header check *)

Lemma mem_In (k : string) (keys : list string) :
  mem k keys = true <-> In k keys.
Proof.
  unfold mem. rewrite existsb_exists. split.
  - intros (x & Hin & Heq). apply String.eqb_eq in Heq. subst. exact Hin.
  - intro Hin. exists k. split; [exact Hin | apply String.eqb_refl].
Qed.

Lemma forallb_mem_false (keys infos : list string) :
  forallb (fun k => mem k infos) keys = false <->
  exists k, In k keys /\ ~ In k infos.
Proof.
  induction keys as [| k keys IH]; simpl.
  - split; [discriminate | intros (k & [] & _)].
  - rewrite andb_false_iff, IH. split.
    + intros [Hk | (k' & Hin & Hnot)].
      * exists k. split; [left; reflexivity |].
        intro Hin. apply mem_In in Hin. rewrite Hin in Hk. discriminate.
      * exists k'. split; [right; exact Hin | exact Hnot].
    + intros (k' & [<- | Hin] & Hnot).
      * left. destruct (mem k infos) eqn:Hk; [| reflexivity].
        apply mem_In in Hk. contradiction.
      * right. exists k'. auto.
Qed.

Lemma check_annotation_passes (infos : list string) :
  check_annotation infos = Ok tt <-> (forall k, In k vcf_keys -> In k infos).
Proof.
  unfold check_annotation.
  destruct (forallb (fun k => mem k infos) vcf_keys) eqn:Hall; simpl.
  - split; [| reflexivity]. intros _ k Hk.
    rewrite forallb_forall in Hall. apply mem_In, Hall, Hk.
  - split; [discriminate |]. intro H.
    apply forallb_mem_false in Hall. destruct Hall as (k & Hk & Hnot).
    exfalso. apply Hnot, H, Hk.
Qed.

Lemma check_annotation_fails (infos : list string) :
  check_annotation infos = Raise (SystemExit annotation_error) <->
  exists k, In k vcf_keys /\ ~ In k infos.
Proof.
  rewrite <- forallb_mem_false. unfold check_annotation.
  destruct (forallb (fun k => mem k infos) vcf_keys); simpl;
    split; try reflexivity; discriminate.
Qed.

Lemma infos_update_In (ks infos : list string) (k : string) :
  In k (fold_left infos_update ks infos) <-> In k infos \/ In k ks.
Proof.
  revert infos. induction ks as [| k' ks IH]; intro infos; simpl.
  - tauto.
  - rewrite IH. unfold infos_update.
    destruct (mem k' infos) eqn:Hmem.
    + apply mem_In in Hmem. split; [tauto |].
      intros [H | [<- | H]]; auto.
    + rewrite in_app_iff. simpl. tauto.
Qed.

(** Declaring the six MPA fields does not change which required names the
    header has. *)
Lemma mpa_infos_neutral (infos : list string) (k : string) :
  In k vcf_keys ->
  (In k (fold_left infos_update mpa_infos infos) <-> In k infos).
Proof.
  intro Hk. rewrite infos_update_In. split; [| auto].
  intros [H | H]; [exact H |]. exfalso.
  assert (Hdisjoint : forallb (fun x => negb (mem x mpa_infos)) vcf_keys = true)
    by reflexivity.
  rewrite forallb_forall in Hdisjoint. specialize (Hdisjoint k Hk).
  apply mem_In in H. rewrite H in Hdisjoint. discriminate.
Qed.

Lemma vcf_keys_required (k : string) :
  In k vcf_keys <-> In k required_fields.
Proof.
  assert (H1 : forallb (fun x => mem x required_fields) vcf_keys = true)
    by reflexivity.
  assert (H2 : forallb (fun x => mem x vcf_keys) required_fields = true)
    by reflexivity.
  rewrite forallb_forall in H1, H2.
  split; intro H; apply mem_In; auto.
Qed.

(** The source lists 17 names, one of them twice: 16 distinct names, the
    ones of section 3. *)
Lemma vcf_keys_count :
  List.length vcf_keys = 17%nat /\
  List.length (nodup string_dec vcf_keys) = 16%nat /\
  List.length required_fields = 16%nat.
Proof. repeat split; reflexivity. Qed.

Lemma process_missing_field (infos : list string) (records : list VcfRecord)
    (st : Run) :
  (exists k, In k required_fields /\ ~ In k infos) ->
  process infos records st = (rejected_run st, Ok (Some 1)).
Proof.
  intros (k & Hk & Hnot). apply vcf_keys_required in Hk.
  assert (Hfail : check_annotation (fold_left infos_update mpa_infos infos)
                  = Raise (SystemExit annotation_error)).
  { apply check_annotation_fails. exists k. split; [exact Hk |].
    rewrite (mpa_infos_neutral infos k Hk). exact Hnot. }
  unfold process. rewrite Hfail. reflexivity.
Qed.

(** C6. For every input file, the whole run fails, before any record is
    processed, when any of the required annotation field names (the 17
    entries of the list in the source, which are the names of section 3) is
    absent from the header, and the header check passes when all of them are
    present. *)
Theorem header_check_gates_the_run (infos : list string)
    (records : list VcfRecord) (st : Run) :
  List.length vcf_keys = 17%nat /\
  ((exists k, In k required_fields /\ ~ In k infos) ->
     process infos records st = (rejected_run st, Ok (Some 1)) /\
     written (fst (process infos records st)) = written st) /\
  ((forall k, In k required_fields -> In k infos) ->
     check_annotation (fold_left infos_update mpa_infos infos) = Ok tt /\
     fst (process infos records st) =
     fst (process_records records
            (log_call INFO (Msg "Read the each variants")
               (log_call INFO (Msg "Check vcf annotations")
                  (log_call INFO (Msg "Read VCF") st))))).
Proof.
  split; [reflexivity |]. split.
  - intro Hmissing.
    pose proof (process_missing_field infos records st Hmissing) as Hrun.
    split; [exact Hrun |]. rewrite Hrun. reflexivity.
  - intro Hall.
    assert (Hpass : check_annotation (fold_left infos_update mpa_infos infos)
                    = Ok tt).
    { apply check_annotation_passes. intros k Hk.
      rewrite (mpa_infos_neutral infos k Hk).
      apply Hall, vcf_keys_required, Hk. }
    split; [exact Hpass |].
    unfold process. rewrite Hpass.
    destruct (process_records records _) as [st' r]. reflexivity.
Qed.

Example missing_CLNSIG_aborts :
  process header_without_CLNSIG [record_missense; record_clinvar] run_start
  = ({| log := [ (INFO, Msg "Read VCF");
                 (INFO, Msg "Check vcf annotations");
                 (ERROR, Msg annotation_error) ];
        written := [] |}, Ok (Some 1)).
Proof. reflexivity. Qed.

Example full_header_processes :
  written (fst (process required_fields [record_missense] run_start))
  = [(record_missense, annotation_missense)].
Proof. reflexivity. Qed.

(** ** Record validation *)

Lemma check_split_variants_rejects (record : VcfRecord) :
  multi_allelic record <->
  exists e, check_split_variants record = Raise (SystemExit e).
Proof.
  unfold multi_allelic, check_split_variants.
  destruct (1 <? Z.of_nat (List.length (Text.split "," (REF record)))) eqn:Href;
    [| destruct (1 <? Z.of_nat (List.length (ALT record))) eqn:Halt].
  - apply Z.ltb_lt in Href. split; [eauto |]. intros _. left. lia.
  - apply Z.ltb_lt in Halt. split; [eauto |]. intros _. right. lia.
  - apply Z.ltb_ge in Href, Halt. split.
    + intros [H | H]; lia.
    + intros (e & H). discriminate.
Qed.

Lemma log_call_written (l : level) (m : message) (st : Run) :
  written (log_call l m st) = written st.
Proof. reflexivity. Qed.

(** Whatever the loop writes beyond what was written before comes from a
    record that passed [check_split_variants]. *)
Lemma process_records_written (records : list VcfRecord) (st : Run)
    (record : VcfRecord) (a : Annotation) :
  In (record, a) (written (fst (process_records records st))) ->
  In (record, a) (written st) \/
  (In record records /\ check_split_variants record = Ok tt).
Proof.
  revert st. induction records as [| r rest IH]; intros st Hin.
  - left. exact Hin.
  - cbn [process_records] in Hin.
    destruct (check_split_variants r) as [[] | e] eqn:Hcheck.
    + destruct (annotate r) as [a' | e'].
      * apply IH in Hin. destruct Hin as [Hin | [Hin Hok]].
        -- cbn [written write_record] in Hin. apply in_app_iff in Hin.
           destruct Hin as [Hin | [Heq | []]]; [left; exact Hin |].
           injection Heq as -> ->. right. split; [left; reflexivity | exact Hcheck].
        -- right. split; [right; exact Hin | exact Hok].
      * left. exact Hin.
    + destruct e as [msg | msg].
      * left. exact Hin.
      * apply IH in Hin. destruct Hin as [Hin | [Hin Hok]].
        -- left. exact Hin.
        -- right. split; [right; exact Hin | exact Hok].
Qed.

(** C8. For every record whose reference allele string holds more than one
    comma-separated value or that has more than one alternate allele, the
    record is logged with its content and skipped -- it is not written to
    the output -- and processing continues with the next record. *)
Theorem multi_allelic_record_skipped (record : VcfRecord)
    (rest : list VcfRecord) (st : Run)
    (Hmulti : multi_allelic record) :
  (exists e,
     process_records (record :: rest) st =
     process_records rest
       (log_call ERROR (Msg e) (log_call ERROR (MsgRecord record) st))) /\
  (forall a,
     In (record, a) (written (fst (process_records (record :: rest) st))) ->
     In (record, a) (written st)).
Proof.
  pose proof (proj1 (check_split_variants_rejects record) Hmulti) as (e & He).
  split.
  - exists e. cbn [process_records]. rewrite He. reflexivity.
  - intros a Hin. apply process_records_written in Hin.
    destruct Hin as [Hin | [_ Hok]]; [exact Hin |].
    rewrite He in Hok. discriminate.
Qed.

Lemma multi_allelic_record_skipped_witness :
  multi_allelic record_two_alts /\
  fst (process_records [record_two_alts; record_missense] run_start) =
  {| log := [ (ERROR, MsgRecord record_two_alts);
              (ERROR, Msg multi_alt_error) ];
     written := [(record_missense, annotation_missense)] |} /\
  (forall a,
     In (record_two_alts, a)
       (written (fst (process_records [record_two_alts; record_missense]
                        run_start))) ->
     In (record_two_alts, a) (written run_start)).
Proof.
  assert (Hmulti : multi_allelic record_two_alts).
  { right. simpl. lia. }
  split; [exact Hmulti |]. split; [reflexivity |].
  exact (proj2 (multi_allelic_record_skipped record_two_alts [record_missense]
                  run_start Hmulti)).
Defined.

Example multi_reference_skipped :
  check_split_variants
    {| REF := "A,C"; ALT := ["G"]; is_indel := false;
       SIFT_pred := None; Polyphen2_HDIV_pred := None;
       Polyphen2_HVAR_pred := None; LRT_pred := None;
       MutationTaster_pred := None; FATHMM_pred := None;
       PROVEAN_pred := None; fathmm_MKL_coding_pred := None;
       MetaSVM_pred := None; MetaLR_pred := None;
       dbscSNV_ADA_SCORE := None; dbscSNV_RF_SCORE := None;
       dpsi_zscore := None; CLNSIG := None; Func_refGene := Some "exonic";
       ExonicFunc_refGene := None |}
  = Raise (SystemExit multi_ref_error).
Proof. reflexivity. Qed.

(** ** The exit status *)

(** Whatever the records, a run whose header lacks a required name ends
    with status 0: [main] drops the value of [process]. *)
Lemma main_status_after_rejection (argv infos : list string)
    (records : list VcfRecord) :
  (exists k, In k required_fields /\ ~ In k infos) ->
  snd (main argv infos records) = 0.
Proof.
  intro Hmissing. unfold main.
  rewrite (process_missing_field infos records _ Hmissing). reflexivity.
Qed.

(** C7, where the code departs from it. A run whose header lacks CLNSIG logs
    the cause, and [process] returns 1, but the program still ends with
    exit status 0 (and logs "End MPA annotation"): the claim asks for a
    non-zero status. *)
Theorem missing_field_exit_status :
  process header_without_CLNSIG [record_missense]
    (log_call INFO (Msg "Command: MPA.py")
       (log_call INFO (Msg "Start MPA annotation") run_start))
  = ({| log := [ (INFO, Msg "Start MPA annotation");
                 (INFO, Msg "Command: MPA.py");
                 (INFO, Msg "Read VCF");
                 (INFO, Msg "Check vcf annotations");
                 (ERROR, Msg annotation_error) ];
        written := [] |}, Ok (Some 1))
  /\ main ["MPA.py"] header_without_CLNSIG [record_missense]
     = ({| log := [ (INFO, Msg "Start MPA annotation");
                    (INFO, Msg "Command: MPA.py");
                    (INFO, Msg "Read VCF");
                    (INFO, Msg "Check vcf annotations");
                    (ERROR, Msg annotation_error);
                    (INFO, Msg "End MPA annotation") ];
           written := [] |}, 0).
Proof. split; reflexivity. Qed.

(** ** Null values *)

(** A null in any consumed field other than the functional region is
    absorbed: the record is annotated. *)
Lemma annotate_text (record : VcfRecord) (text : string) :
  Func_refGene record = Some text ->
  exists out, annotate record = Ok out.
Proof.
  intro Hfunc.
  destruct (classify_text record text Hfunc) as (splice & _ & Hmeta).
  unfold annotate. rewrite Hmeta. cbn [bind]. eexists. reflexivity.
Qed.

(** A null functional region makes the record loop raise [TypeError], which
    [process] does not catch. *)
Lemma annotate_null_func (record : VcfRecord) :
  Func_refGene record = None ->
  annotate record = Raise (TypeError "expected string or bytes-like object").
Proof.
  intro Hfunc. unfold annotate.
  rewrite (classify_null_func record Hfunc). reflexivity.
Qed.

(** C9, where the code departs from it. On a record whose functional-region
    value is null, the splice classifier raises [TypeError]; the exception is
    not caught, so the run stops there with status 1 and the records that
    follow are not written: the claim asks that no null raises. *)
Theorem null_func_region_raises :
  is_splice_impact (splices_scores record_null_func)
    (is_indel record_null_func) (Func_refGene record_null_func)
  = Raise (TypeError "expected string or bytes-like object")
  /\ annotate record_null_func
     = Raise (TypeError "expected string or bytes-like object")
  /\ main ["MPA.py"] required_fields [record_null_func; record_missense]
     = ({| log := [ (INFO, Msg "Start MPA annotation");
                    (INFO, Msg "Command: MPA.py");
                    (INFO, Msg "Read VCF");
                    (INFO, Msg "Check vcf annotations");
                    (INFO, Msg "Read the each variants") ];
           written := [] |}, 1).
Proof. repeat split; reflexivity. Qed.

Example frameshift_not_nonframeshift :
  is_frameshift_impact "frameshift_insertion" = PyInt 2 /\
  is_frameshift_impact "nonframeshift_insertion" = PyFalse.
Proof. split; reflexivity. Qed.

(** * Further properties of the code *)

(** ** The aggregator: missing calls, order, unanimity, monotonicity *)

Lemma count_if_without_nulls (f : option string -> bool)
    (items : dict (option string)) :
  (forall x, f x = true -> is_some x = true) ->
  count_if f (without_nulls items) = count_if f items.
Proof.
  intro Himp. unfold count_if, without_nulls. f_equal.
  induction items as [| [k x] items IH]; [reflexivity |].
  cbn [filter snd]. destruct (is_some x) eqn:Hx.
  - cbn [filter snd]. destruct (f x); cbn [List.length]; rewrite IH; reflexivity.
  - destruct (f x) eqn:Hf; [| exact IH].
    apply Himp in Hf. rewrite Hf in Hx. discriminate.
Qed.

Lemma calculate_adjusted_score_counts (items : dict (option string)) :
  calculate_adjusted_score items =
  {| adjusted := if 0 <? count_if is_some items
                 then NFloat (ratio (count_if is_D items) (count_if is_some items))
                 else NInt 0;
     available := count_if is_some items;
     deleterious := count_if is_D items |}.
Proof.
  unfold calculate_adjusted_score. rewrite count_impacts_counts.
  cbn zeta. rewrite !Z.add_0_l. reflexivity.
Qed.

(** X1. Null calls are ignored: the scores of a call set are those of the
    call set without its null entries, whatever its size. *)
Theorem nulls_do_not_count (items : dict (option string)) :
  calculate_adjusted_score (without_nulls items) = calculate_adjusted_score items.
Proof.
  rewrite !calculate_adjusted_score_counts.
  assert (HD : count_if is_D (without_nulls items) = count_if is_D items).
  { apply count_if_without_nulls. intros [s |] H; [reflexivity | discriminate]. }
  assert (HA : count_if is_some (without_nulls items) = count_if is_some items).
  { apply count_if_without_nulls. auto. }
  rewrite HD, HA. reflexivity.
Qed.

Lemma count_if_permutation (f : option string -> bool)
    (items items' : dict (option string)) :
  Permutation items items' -> count_if f items = count_if f items'.
Proof.
  unfold count_if. intro Hperm. f_equal.
  induction Hperm as [| e l l' _ IH | e e' l | l l' l'' _ IH1 _ IH2].
  - reflexivity.
  - cbn [filter]. destruct (f (snd e)); cbn [List.length]; rewrite IH; reflexivity.
  - cbn [filter]. destruct (f (snd e)), (f (snd e')); reflexivity.
  - rewrite IH1. exact IH2.
Qed.

(** X2. The scores do not depend on the order in which the dict yields the
    predictor calls. *)
Theorem scores_order_independent (items items' : dict (option string))
    (Hperm : Permutation items items') :
  calculate_adjusted_score items = calculate_adjusted_score items'.
Proof.
  rewrite !calculate_adjusted_score_counts.
  rewrite (count_if_permutation is_D _ _ Hperm).
  rewrite (count_if_permutation is_some _ _ Hperm). reflexivity.
Qed.

Lemma scores_order_independent_witness :
  Permutation calls_a calls_b /\
  calculate_adjusted_score calls_a = calculate_adjusted_score calls_b.
Proof.
  assert (Hperm : Permutation calls_a calls_b).
  { change calls_b with (rev calls_a). apply Permutation_rev. }
  split; [exact Hperm | exact (scores_order_independent _ _ Hperm)].
Defined.

Lemma ratio_full (a : Z) : 0 < a <= 10 -> ratio a a = 10%float.
Proof.
  intro Ha.
  remember (Z.to_nat a) as n eqn:Hn.
  assert (Hb : (1 <= n <= 10)%nat) by lia.
  replace a with (Z.of_nat n) by lia. clear Hn Ha.
  do 11 (destruct n as [| n]; [first [reflexivity | lia] |]).
  lia.
Qed.

Lemma ratio_ten_only_full (d a : Z) :
  0 <= d <= a -> 0 < a <= 10 -> ratio d a = 10%float -> d = a.
Proof.
  intros Hd Ha Hten.
  assert (Hall : forallb (fun a' =>
            forallb (fun d' => (a' =? 0) || (a' <? d') || (d' =? a')
                               || negb (PrimFloat.eqb (ratio d' a') 10))
              (map Z.of_nat (seq 0 11)))
            (map Z.of_nat (seq 0 11)) = true) by (vm_compute; reflexivity).
  pose proof (forallb_upto _ _ Hall a ltac:(simpl; lia)) as Hrow.
  cbv beta in Hrow.
  pose proof (forallb_upto _ _ Hrow d ltac:(simpl; lia)) as Hcell.
  cbv beta in Hcell. rewrite Hten in Hcell.
  rewrite !orb_true_iff in Hcell.
  destruct Hcell as [[[Hzero | Hlt] | Heq] | Hne].
  - apply Z.eqb_eq in Hzero. lia.
  - apply Z.ltb_lt in Hlt. lia.
  - apply Z.eqb_eq in Heq. exact Heq.
  - vm_compute in Hne. discriminate.
Qed.

(** X3. With at most ten calls of which at least one is available, the
    adjusted score is the float 10.0 exactly when every available predictor
    says "D". *)
Theorem adjusted_ten_iff_unanimous (items : dict (option string))
    (Hsize : (List.length items <= 10)%nat)
    (Havail : 0 < available (calculate_adjusted_score items)) :
  adjusted (calculate_adjusted_score items) = NFloat 10 <->
  deleterious (calculate_adjusted_score items)
  = available (calculate_adjusted_score items).
Proof.
  rewrite calculate_adjusted_score_counts in *.
  cbn [adjusted available deleterious] in *.
  pose proof (count_if_bounds is_some items) as Ha.
  pose proof (count_if_bounds is_D items) as Hd.
  pose proof (count_D_le_available items) as Hda.
  set (d := count_if is_D items) in *.
  set (a := count_if is_some items) in *.
  apply Z.ltb_lt in Havail. rewrite Havail. apply Z.ltb_lt in Havail.
  split.
  - intro H. injection H as H.
    apply (ratio_ten_only_full d a); [lia | lia | exact H].
  - intro H. rewrite H. f_equal. apply ratio_full. lia.
Qed.

Lemma adjusted_ten_iff_unanimous_witness :
  (List.length calls_a <= 10)%nat /\
  0 < available (calculate_adjusted_score calls_a) /\
  adjusted (calculate_adjusted_score calls_a) <> NFloat 10.
Proof.
  assert (Hsize : (List.length calls_a <= 10)%nat) by (simpl; lia).
  assert (Havail : 0 < available (calculate_adjusted_score calls_a))
    by reflexivity.
  split; [exact Hsize |]. split; [exact Havail |].
  intro Hten.
  apply (adjusted_ten_iff_unanimous calls_a Hsize Havail) in Hten.
  discriminate Hten.
Defined.

Lemma ratio_monotone (d1 d2 a : Z) :
  0 <= d1 <= d2 -> d2 <= a -> 0 < a <= 10 ->
  PrimFloat.leb (ratio d1 a) (ratio d2 a) = true.
Proof.
  intros H1 H2 Ha.
  assert (Hall : forallb (fun a' =>
            forallb (fun d2' =>
              forallb (fun d1' => (a' =? 0) || (a' <? d2') || (d2' <? d1')
                                  || PrimFloat.leb (ratio d1' a') (ratio d2' a'))
                (map Z.of_nat (seq 0 11)))
              (map Z.of_nat (seq 0 11)))
            (map Z.of_nat (seq 0 11)) = true) by (vm_compute; reflexivity).
  pose proof (forallb_upto _ _ Hall a ltac:(simpl; lia)) as Hrow.
  cbv beta in Hrow.
  pose proof (forallb_upto _ _ Hrow d2 ltac:(simpl; lia)) as Hcol.
  cbv beta in Hcol.
  pose proof (forallb_upto _ _ Hcol d1 ltac:(simpl; lia)) as Hcell.
  cbv beta in Hcell.
  rewrite !orb_true_iff in Hcell.
  destruct Hcell as [[[Hzero | Hlt] | Hlt] | Hle]; [| | | exact Hle].
  - apply Z.eqb_eq in Hzero. lia.
  - apply Z.ltb_lt in Hlt. lia.
  - apply Z.ltb_lt in Hlt. lia.
Qed.

(** X4. Among call sets of at most ten entries with the same number of
    available predictors, more "D" calls never give a lower adjusted
    score. *)
Theorem adjusted_monotone (items1 items2 : dict (option string))
    (Hsize1 : (List.length items1 <= 10)%nat)
    (Hsize2 : (List.length items2 <= 10)%nat)
    (Hsame : available (calculate_adjusted_score items1)
             = available (calculate_adjusted_score items2))
    (Hmore : deleterious (calculate_adjusted_score items1)
             <= deleterious (calculate_adjusted_score items2)) :
  num_le (adjusted (calculate_adjusted_score items1))
         (adjusted (calculate_adjusted_score items2)).
Proof.
  rewrite !calculate_adjusted_score_counts in *.
  cbn [adjusted available deleterious] in *.
  pose proof (count_if_bounds is_some items2) as Ha.
  pose proof (count_if_bounds is_D items1) as Hd1.
  pose proof (count_D_le_available items2) as Hda.
  rewrite Hsame.
  destruct (0 <? count_if is_some items2) eqn:Hpos; cbn [num_le]; [| lia].
  apply Z.ltb_lt in Hpos. apply ratio_monotone; lia.
Qed.

Lemma adjusted_monotone_witness :
  (List.length calls_a <= 10)%nat /\
  (List.length calls_c <= 10)%nat /\
  deleterious (calculate_adjusted_score calls_a) = 5 /\
  deleterious (calculate_adjusted_score calls_c) = 6 /\
  num_le (adjusted (calculate_adjusted_score calls_a))
         (adjusted (calculate_adjusted_score calls_c)).
Proof.
  assert (Hsize1 : (List.length calls_a <= 10)%nat) by (simpl; lia).
  assert (Hsize2 : (List.length calls_c <= 10)%nat) by (simpl; lia).
  split; [exact Hsize1 |]. split; [exact Hsize2 |].
  split; [reflexivity |]. split; [reflexivity |].
  apply (adjusted_monotone calls_a calls_c Hsize1 Hsize2);
    [reflexivity | vm_compute; discriminate].
Defined.

(** ** The record validator and commas *)

Lemma split_length (sep : ascii) (s : string) :
  List.length (Text.split sep s) = S (count_char sep s).
Proof.
  induction s as [| c s IH]; [reflexivity |].
  cbn [Text.split count_char]. destruct (Ascii.eqb c sep).
  - cbn [List.length]. rewrite IH. reflexivity.
  - destruct (Text.split sep s) as [| hd tl]; [discriminate IH |].
    exact IH.
Qed.

Lemma count_char_zero (c : ascii) (s : string) :
  count_char c s = 0%nat <-> ~ occurs c s.
Proof.
  unfold occurs. induction s as [| c' s IH]; cbn [count_char].
  - split; [| reflexivity]. intros _ (a & b & H).
    destruct a; discriminate H.
  - destruct (Ascii.eqb c' c) eqn:Hc.
    + apply Ascii.eqb_eq in Hc. subst c'. split; [discriminate |].
      intro H. exfalso. apply H. exists "", s. reflexivity.
    + apply Ascii.eqb_neq in Hc. rewrite IH. split.
      * intros Hno (a & b & H). destruct a as [| x a]; cbn in H.
        -- injection H as H _. contradiction.
        -- injection H as _ H. apply Hno. exists a, b. exact H.
      * intros Hno (a & b & H). apply Hno.
        exists (String c' a), b. cbn. rewrite H. reflexivity.
Qed.

(** X5. [check_split_variants] accepts a record exactly when its REF holds
    no comma and it has at most one ALT allele; a comma in REF gives the
    multi-reference message even when ALT is multiple too, and several ALT
    alleles with a comma-free REF give the multi-allelic message. *)
Theorem check_split_variants_cases (record : VcfRecord) :
  (check_split_variants record = Ok tt <->
     ~ occurs "," (REF record) /\ (List.length (ALT record) <= 1)%nat) /\
  (occurs "," (REF record) ->
     check_split_variants record = Raise (SystemExit multi_ref_error)) /\
  (~ occurs "," (REF record) -> (1 < List.length (ALT record))%nat ->
     check_split_variants record = Raise (SystemExit multi_alt_error)).
Proof.
  unfold check_split_variants. rewrite split_length.
  pose proof (count_char_zero "," (REF record)) as Hzero.
  destruct (1 <? Z.of_nat (S (count_char "," (REF record)))) eqn:Href.
  - apply Z.ltb_lt in Href.
    assert (Hocc : ~ ~ occurs "," (REF record)).
    { intro H. apply Hzero in H. lia. }
    split; [| split].
    + split; [discriminate | intros [H _]; contradiction].
    + reflexivity.
    + intros H. contradiction.
  - apply Z.ltb_ge in Href.
    assert (Hno : ~ occurs "," (REF record)) by (apply Hzero; lia).
    destruct (1 <? Z.of_nat (List.length (ALT record))) eqn:Halt.
    + apply Z.ltb_lt in Halt. split; [| split].
      * split; [discriminate | intros [_ H]; lia].
      * intro H. contradiction.
      * reflexivity.
    + apply Z.ltb_ge in Halt. split; [| split].
      * split; [intros _; split; [exact Hno | lia] | reflexivity].
      * intro H. contradiction.
      * intros _ H. lia.
Qed.

(** ** Letter case *)

Lemma match_here_fold (pat s s' : string) :
  Text.lower_str s = Text.lower_str s' ->
  Text.match_here pat s = Text.match_here pat s'.
Proof.
  revert s s'. induction pat as [| a pat IH]; intros s s' H; [reflexivity |].
  destruct s as [| b s], s' as [| b' s']; cbn in H; try discriminate;
    [reflexivity |].
  injection H as Hb Hs. cbn [Text.match_here].
  rewrite Hb, (IH s s' Hs). reflexivity.
Qed.

Lemma search_ic_fold (pat s s' : string) :
  Text.lower_str s = Text.lower_str s' ->
  Text.search_ic pat s = Text.search_ic pat s'.
Proof.
  revert s'. induction s as [| b s IH]; intros s' H.
  - destruct s'; [reflexivity | discriminate H].
  - destruct s' as [| b' s']; [discriminate H |].
    cbn [Text.search_ic].
    rewrite (match_here_fold pat _ _ H).
    cbn in H. injection H as _ Hs. rewrite (IH s' Hs). reflexivity.
Qed.

(** X6. The classifiers read their text up to letter case: two texts that
    differ only in the case of ASCII letters get the same ClinVar, splice,
    stop, frameshift, missense and unknown flags. *)
Theorem classifiers_ignore_case (s s' : string) (sc : SpliceScores)
    (indel : bool)
    (Hfold : Text.lower_str s = Text.lower_str s') :
  is_clinvar_pathogenic (Some s) = is_clinvar_pathogenic (Some s') /\
  is_splice_impact sc indel (Some s) = is_splice_impact sc indel (Some s') /\
  is_stop_impact s = is_stop_impact s' /\
  is_frameshift_impact s = is_frameshift_impact s' /\
  is_missense_impact s = is_missense_impact s' /\
  is_unknown_impact s = is_unknown_impact s'.
Proof.
  unfold is_clinvar_pathogenic, is_splice_impact, is_stop_impact,
    is_frameshift_impact, is_missense_impact, is_unknown_impact.
  cbn [re_search bind].
  rewrite !(search_ic_fold _ s s' Hfold).
  repeat split; reflexivity.
Qed.

Lemma classifiers_ignore_case_witness :
  Text.lower_str "Likely_Pathogenic" = Text.lower_str "LIKELY_PATHOGENIC" /\
  is_clinvar_pathogenic (Some "Likely_Pathogenic") = PyInt 1 /\
  is_clinvar_pathogenic (Some "LIKELY_PATHOGENIC") = PyInt 1.
Proof.
  assert (Hfold : Text.lower_str "Likely_Pathogenic"
                  = Text.lower_str "LIKELY_PATHOGENIC") by reflexivity.
  split; [exact Hfold |]. split; [reflexivity |].
  destruct (classifiers_ignore_case _ _
              {| ADA := None; RF := None; Zscore := None |} false Hfold)
    as [Hclinvar _].
  rewrite <- Hclinvar. reflexivity.
Defined.

(** ** The splice classifier: the fallback score and the null text *)

(** X7. The Zscore is a fallback only: as soon as ADA or RF is present,
    even below the threshold, the result does not depend on the Zscore. *)
Theorem zscore_ignored_with_primary_score (sc : SpliceScores) (indel : bool)
    (funcRefGene : option string) (z : option float)
    (Hprimary : ADA sc <> None \/ RF sc <> None) :
  is_splice_impact (with_zscore sc z) indel funcRefGene
  = is_splice_impact sc indel funcRefGene.
Proof.
  unfold is_splice_impact, with_zscore. cbn [ADA RF Zscore].
  destruct (ADA sc) as [a |], (RF sc) as [r |];
    try (destruct Hprimary as [H | H]; contradiction);
    destruct z, (Zscore sc); reflexivity.
Qed.

Lemma zscore_ignored_with_primary_score_witness :
  ADA scores_low_ada <> None /\
  is_splice_impact (with_zscore scores_low_ada (Some (-3)%float)) false
    (Some "intronic")
  = is_splice_impact scores_low_ada false (Some "intronic").
Proof.
  assert (Hada : ADA scores_low_ada <> None) by discriminate.
  split; [exact Hada |].
  exact (zscore_ignored_with_primary_score scores_low_ada false
           (Some "intronic") (Some (-3)%float) (or_introl Hada)).
Defined.

(** X8. [is_splice_impact] raises exactly when the functional-region value
    is null, whatever the scores (a qualifying RF does not prevent it); on a
    text it returns [False] or a rank from 3 to 6, and rank 6 only for an
    indel. *)
Theorem splice_raises_only_on_null (sc : SpliceScores) (indel : bool)
    (funcRefGene : option string) :
  match funcRefGene with
  | None =>
      is_splice_impact sc indel funcRefGene
      = Raise (TypeError "expected string or bytes-like object")
  | Some text =>
      exists v,
        is_splice_impact sc indel funcRefGene = Ok v /\
        (v = PyFalse \/ 3 <= int_of v <= 6) /\
        (v = PyInt 6 -> indel = true)
  end.
Proof.
  destruct funcRefGene as [text |]; [| reflexivity].
  unfold is_splice_impact. cbn [re_search bind].
  eexists. split; [reflexivity |].
  destruct (score_ge (RF sc) _);
    [split; [right; simpl; lia | discriminate] |].
  destruct (score_ge (ADA sc) _);
    [split; [right; simpl; lia | discriminate] |].
  destruct (match Zscore sc with Some _ => _ | None => _ end);
    [split; [right; simpl; lia | discriminate] |].
  destruct indel; cbn [andb].
  - destruct (Text.search_ic "splicing" text);
      split; auto; right; simpl; lia.
  - split; [left; reflexivity | discriminate].
Qed.

(** ** Nulls in a record *)

(** X9. Annotating a record fails exactly when its functional-region value
    is null: a null in any of the other fifteen consumed fields is
    absorbed. *)
Theorem annotate_raises_iff_null_func (record : VcfRecord) :
  (exists e, annotate record = Raise e) <-> Func_refGene record = None.
Proof.
  split.
  - intros (e & He).
    destruct (Func_refGene record) as [text |] eqn:Hfunc; [| reflexivity].
    destruct (annotate_text record text Hfunc) as (out & Hout).
    rewrite Hout in He. discriminate.
  - intro Hfunc. eexists. apply annotate_null_func, Hfunc.
Qed.

(** ** The annotation of a record: ranges *)

Lemma scores_in_range (items : dict (option string)) :
  (List.length items <= 10)%nat ->
  0 <= deleterious (calculate_adjusted_score items)
    <= available (calculate_adjusted_score items) /\
  available (calculate_adjusted_score items) <= 10 /\
  in_0_10 (adjusted (calculate_adjusted_score items)).
Proof.
  intro Hsize. rewrite calculate_adjusted_score_counts.
  cbn [adjusted available deleterious].
  pose proof (count_if_bounds is_some items) as Ha.
  pose proof (count_if_bounds is_D items) as Hd.
  pose proof (count_D_le_available items) as Hda.
  repeat split; try lia.
  destruct (0 <? count_if is_some items) eqn:Hpos; cbn [in_0_10]; [| lia].
  apply Z.ltb_lt in Hpos.
  pose proof (ratio_in_range_upto_10 (count_if is_D items)
                (count_if is_some items) ltac:(lia) ltac:(lia)) as Hr.
  unfold ratio_in_range in Hr. apply andb_true_iff in Hr. exact Hr.
Qed.

Lemma truthy_is_int (v : pyrank) : truthy v = true -> v = PyInt (int_of v).
Proof. destruct v; [discriminate | reflexivity]. Qed.

Lemma annotate_resolve (record : VcfRecord) (out : Annotation) :
  annotate record = Ok out ->
  exists meta,
    classify record = Ok meta /\
    out = resolve (calculate_adjusted_score (impacts_scores record)) meta.
Proof.
  unfold annotate. destruct (classify record) as [meta | e]; cbn [bind];
    [| discriminate].
  intro H. injection H as <-. exists meta. auto.
Qed.

(** X10. Every annotation [process] writes is well formed: [MPA_ranking] is
    an integer from 1 to 8, 0 <= [MPA_deleterious] <= [MPA_available] <= 10,
    [MPA_adjusted] lies in [0, 10], and [MPA_final_score] is present and
    lies in [0, 10]. *)
Theorem annotation_well_formed (record : VcfRecord) (out : Annotation)
    (Hout : annotate record = Ok out) :
  (exists n, MPA_ranking out = PyInt n /\ 1 <= n <= 8) /\
  0 <= MPA_deleterious out <= MPA_available out /\
  MPA_available out <= 10 /\
  in_0_10 (MPA_adjusted out) /\
  (exists x, MPA_final_score out = Some x /\ in_0_10 x).
Proof.
  destruct (annotate_resolve record out Hout) as (meta & Hmeta & ->).
  set (scores := calculate_adjusted_score (impacts_scores record)).
  destruct (scores_in_range (impacts_scores record) ltac:(simpl; lia))
    as (Hd & Ha & Hadj).
  fold scores in Hd, Ha, Hadj.
  destruct (resolve_spec scores meta) as [Hnil Hcons].
  split; [| split; [exact Hd | split; [exact Ha | split; [exact Hadj |]]]].
  - destruct (fired_names meta) eqn:Hnames.
    + destruct (Hnil eq_refl) as (Hr & _). exists 8. split; [exact Hr | lia].
    + destruct (Hcons ltac:(discriminate)) as ((c0 & Hc0 & _) & _ & _).
      destruct (classify_flags record meta Hmeta)
        as (clinvar & splice & ex & -> & Hclinvar & Hsplice).
      pose proof (flags_of_classes _ _ _ _ _ Hclinvar Hsplice Hc0) as Hclass.
      destruct Hclass as [[_ Hv] | [[_ Hv] | (_ & _ & Hv)]].
      * exists 7. split; [exact Hv | lia].
      * exists 8. split; [exact Hv | lia].
      * exists (int_of (MPA_ranking (resolve scores (flags_of clinvar splice ex)))).
        split; [apply truthy_is_int; destruct Hc0; assumption | lia].
  - destruct (fired_names meta) eqn:Hnames.
    + destruct (Hnil eq_refl) as (_ & _ & Hf). eexists. split; [exact Hf | exact Hadj].
    + destruct (Hcons ltac:(discriminate)) as ((c0 & _ & Hf) & _ & _).
      eexists. split; [exact Hf |]. unfold score_for.
      destruct (_ || _); [exact Hadj | simpl; lia].
Qed.

Lemma annotation_well_formed_witness :
  annotate record_stopgain =
  Ok {| MPA_adjusted := NFloat 10; MPA_available := 1; MPA_deleterious := 1;
        MPA_final_score := Some (NInt 10);
        MPA_impact := "stop_impact";
        MPA_ranking := PyInt 2 |}
  /\ exists n, PyInt 2 = PyInt n /\ 1 <= n <= 8.
Proof.
  split; [reflexivity |].
  exact (proj1 (annotation_well_formed record_stopgain _ eq_refl)).
Defined.

(** X11. The final score follows from the rank: a record ranked 1 to 6 gets
    the integer 10, a record ranked 7 or 8 gets its adjusted score. *)
Theorem final_score_by_rank (record : VcfRecord) (out : Annotation)
    (Hout : annotate record = Ok out) :
  (int_of (MPA_ranking out) <= 6 -> MPA_final_score out = Some (NInt 10)) /\
  (7 <= int_of (MPA_ranking out) ->
   MPA_final_score out = Some (MPA_adjusted out)).
Proof.
  destruct (annotate_resolve record out Hout) as (meta & Hmeta & ->).
  set (scores := calculate_adjusted_score (impacts_scores record)).
  destruct (resolve_spec scores meta) as [Hnil Hcons].
  destruct (fired_names meta) eqn:Hnames.
  - destruct (Hnil eq_refl) as (Hr & _ & Hf). rewrite Hr, Hf. simpl.
    split; [lia | reflexivity].
  - destruct (Hcons ltac:(discriminate)) as ((c0 & Hc0 & Hf) & _ & _).
    destruct (classify_flags record meta Hmeta)
      as (clinvar & splice & ex & -> & Hclinvar & Hsplice).
    pose proof (flags_of_classes _ _ _ _ _ Hclinvar Hsplice Hc0) as Hclass.
    rewrite Hf. unfold score_for.
    destruct Hclass as [[-> Hv] | [[-> Hv] | (Hm & Hu & Hv)]].
    + rewrite Hv. simpl. split; [lia | reflexivity].
    + rewrite Hv. simpl. split; [lia | reflexivity].
    + apply String.eqb_neq in Hm, Hu. rewrite Hm, Hu. cbn [orb].
      split; [reflexivity | intro H; lia].
Qed.

Lemma final_score_by_rank_witness :
  annotate record_missense = Ok annotation_missense /\
  7 <= int_of (MPA_ranking annotation_missense) /\
  MPA_final_score annotation_missense = Some (MPA_adjusted annotation_missense).
Proof.
  assert (Hout : annotate record_missense = Ok annotation_missense)
    by reflexivity.
  split; [exact Hout |]. split; [simpl; lia |].
  apply (proj2 (final_score_by_rank record_missense annotation_missense Hout)).
  simpl. lia.
Defined.

Lemma joined_names_not_null (f : string -> bool) :
  filter f category_order <> [] ->
  String.concat "," (filter f category_order) <> "NULL" /\
  String.concat "," (filter f category_order) <> "".
Proof.
  unfold category_order. cbn [filter].
  destruct (f "clinvar_pathogenicity"), (f "splice_impact"),
    (f "stop_impact"), (f "frameshift_impact"), (f "unknown_impact"),
    (f "missense_impact");
    intro Hne; try (exfalso; apply Hne; reflexivity);
    split; intro E; vm_compute in E; discriminate E.
Qed.

(** X12. [MPA_impact] is never empty, and it is "NULL" exactly when no
    category fired: the rank 8 of a record without any evidence is told
    from the rank 8 of an unknown_impact by this field. *)
Theorem impact_null_iff_none_fired (record : VcfRecord) (meta : dict pyrank)
    (out : Annotation)
    (Hmeta : classify record = Ok meta)
    (Hout : annotate record = Ok out) :
  (MPA_impact out = "NULL" <-> forall c v, ~ fired meta c v) /\
  MPA_impact out <> "".
Proof.
  destruct (annotate_resolve record out Hout) as (meta' & Hmeta' & ->).
  rewrite Hmeta in Hmeta'. injection Hmeta' as <-.
  set (scores := calculate_adjusted_score (impacts_scores record)).
  destruct (resolve_spec scores meta) as [Hnil Hcons].
  rewrite <- fired_names_nil.
  destruct (fired_names meta) eqn:Hnames.
  - destruct (Hnil eq_refl) as (_ & Hi & _). rewrite Hi.
    split; [split; reflexivity | discriminate].
  - destruct (Hcons ltac:(discriminate)) as (_ & _ & Hi). rewrite Hi.
    destruct (classify_flags record meta Hmeta)
      as (clinvar & splice & ex & Heq & _ & _).
    rewrite <- Hnames, Heq, fired_names_in_order.
    assert (Hne : filter (flag_fired (flags_of clinvar splice ex)) category_order
                  <> []).
    { rewrite <- fired_names_in_order, <- Heq, Hnames. discriminate. }
    destruct (joined_names_not_null _ Hne) as [H1 H2].
    split; [split; [intro H; contradiction | intro H] | exact H2].
    rewrite <- fired_names_in_order, <- Heq, Hnames in H. discriminate H.
Qed.

Lemma impact_null_iff_none_fired_witness :
  classify record_unknown = Ok flags_unknown /\
  annotate record_unknown = Ok annotation_unknown /\
  MPA_ranking annotation_unknown = PyInt 8 /\
  MPA_impact annotation_unknown <> "NULL".
Proof.
  assert (Hmeta : classify record_unknown = Ok flags_unknown) by reflexivity.
  assert (Hout : annotate record_unknown = Ok annotation_unknown) by reflexivity.
  split; [exact Hmeta |]. split; [exact Hout |]. split; [reflexivity |].
  intro Hnull.
  destruct (impact_null_iff_none_fired record_unknown flags_unknown
              annotation_unknown Hmeta Hout) as [[Hnone _] _].
  apply (Hnone Hnull "unknown_impact" (PyInt 8)).
  split; [| reflexivity]. do 4 right. left. reflexivity.
Defined.

(** ** The ranking loop on any flags mapping *)

Lemma fired_permutation (meta meta' : dict pyrank) (c : string) (v : pyrank) :
  Permutation meta meta' -> fired meta c v -> fired meta' c v.
Proof.
  intros Hperm [Hin Hv]. split; [| exact Hv].
  exact (Permutation_in _ Hperm Hin).
Qed.

(** X13. The rank does not depend on the order in which the flags mapping
    is iterated: two mappings with the same entries get the same
    [MPA_ranking]. *)
Theorem rank_order_independent (scores : Scores) (meta meta' : dict pyrank)
    (Hperm : Permutation meta meta') :
  MPA_ranking (resolve scores meta) = MPA_ranking (resolve scores meta').
Proof.
  destruct (resolve_spec scores meta) as [Hnil Hcons].
  destruct (resolve_spec scores meta') as [Hnil' Hcons'].
  destruct (fired_names meta) eqn:Hnames.
  - destruct (Hnil eq_refl) as (Hr & _).
    assert (Hnone' : fired_names meta' = []).
    { apply fired_names_nil. intros c v Hc.
      apply (fired_permutation _ _ _ _ (Permutation_sym Hperm)) in Hc.
      exact (proj1 (fired_names_nil meta) Hnames _ _ Hc). }
    destruct (Hnil' Hnone') as (Hr' & _). rewrite Hr, Hr'. reflexivity.
  - destruct (Hcons ltac:(discriminate)) as ((c0 & Hc0 & _) & Hmin & _).
    assert (Hsome' : fired_names meta' <> []).
    { intro H.
      exact (proj1 (fired_names_nil meta') H c0 _
               (fired_permutation _ _ _ _ Hperm Hc0)). }
    destruct (Hcons' Hsome') as ((c1 & Hc1 & _) & Hmin' & _).
    pose proof (Hmin' _ _ (fired_permutation _ _ _ _ Hperm Hc0)) as H1.
    pose proof (Hmin _ _ (fired_permutation _ _ _ _ (Permutation_sym Hperm) Hc1))
      as H2.
    rewrite (truthy_is_int _ (proj2 Hc0)), (truthy_is_int _ (proj2 Hc1)).
    f_equal. lia.
Qed.

Lemma rank_order_independent_witness :
  Permutation flags_tie (rev flags_tie) /\
  MPA_ranking (resolve scores_half flags_tie) = PyInt 2 /\
  MPA_ranking (resolve scores_half (rev flags_tie)) = PyInt 2.
Proof.
  assert (Hperm : Permutation flags_tie (rev flags_tie))
    by apply Permutation_rev.
  split; [exact Hperm |]. split; [reflexivity |].
  rewrite <- (rank_order_independent scores_half _ _ Hperm). reflexivity.
Defined.

Lemma fold_keeps_leader (adjusted_value : pynum) (post : dict pyrank)
    (st : Ranking) :
  truthy (rank st) = true ->
  (forall c v, fired post c v -> int_of (rank st) <= int_of v) ->
  rank (fold_left (rank_step adjusted_value) post st) = rank st /\
  final_score (fold_left (rank_step adjusted_value) post st) = final_score st.
Proof.
  revert st. induction post as [| [c v] post IH]; intros st Htr Hmin;
    [split; reflexivity |].
  cbn [fold_left].
  assert (Hstep : rank (rank_step adjusted_value st (c, v)) = rank st /\
                  final_score (rank_step adjusted_value st (c, v))
                  = final_score st).
  { unfold rank_step. destruct (truthy v) eqn:Hv; [| split; reflexivity].
    assert (Hle : int_of (rank st) <= int_of v).
    { apply (Hmin c v). split; [left; reflexivity | exact Hv]. }
    unfold py_lt. rewrite Htr. cbn [negb]. rewrite orb_false_r.
    destruct (int_of v <? int_of (rank st)) eqn:Hlt;
      [apply Z.ltb_lt in Hlt; lia | split; reflexivity]. }
  destruct Hstep as [Hr Hf].
  destruct (IH (rank_step adjusted_value st (c, v))) as [Hr' Hf'].
  - rewrite Hr. exact Htr.
  - intros c' v' [Hin Hv']. rewrite Hr. apply (Hmin c' v').
    split; [right; exact Hin | exact Hv'].
  - rewrite Hr', Hf', Hr, Hf. split; reflexivity.
Qed.

(** X14. Ties go to the first comer: when a fired category is strictly
    below every fired category before it in the mapping and not above any
    fired category after it, it gives the rank and decides the final score,
    whatever the categories tied with it further on. *)
Theorem first_minimal_category_decides (scores : Scores)
    (pre post : dict pyrank) (c : string) (v : pyrank)
    (Hv : truthy v = true)
    (Hpre : forall c' v', fired pre c' v' -> int_of v < int_of v')
    (Hpost : forall c' v', fired post c' v' -> int_of v <= int_of v') :
  MPA_ranking (resolve scores (pre ++ (c, v) :: post)%list) = v /\
  MPA_final_score (resolve scores (pre ++ (c, v) :: post)%list)
  = Some (score_for (adjusted scores) c).
Proof.
  unfold resolve, rank_loop. rewrite fold_left_app. cbn [fold_left].
  pose proof (rank_loop_invariant (adjusted scores) pre) as [_ Hinv].
  unfold rank_loop in Hinv.
  set (st := fold_left (rank_step (adjusted scores)) pre ranking_start) in *.
  assert (Hstep : rank_step (adjusted scores) st (c, v) =
                  {| rank := v;
                     impact_text := impact_text st ++ c ++ ",";
                     final_score := Some (score_for (adjusted scores) c) |}).
  { unfold rank_step, score_for. rewrite Hv.
    destruct Hinv as [(_ & Hr & _) | ((c0 & Hc0 & _) & _)].
    - rewrite Hr. cbn [truthy negb]. rewrite orb_true_r. reflexivity.
    - pose proof (Hpre _ _ Hc0) as Hlt. apply Z.ltb_lt in Hlt.
      unfold py_lt. rewrite Hlt. reflexivity. }
  rewrite Hstep.
  destruct (fold_keeps_leader (adjusted scores) post
              {| rank := v;
                 impact_text := impact_text st ++ c ++ ",";
                 final_score := Some (score_for (adjusted scores) c) |})
    as [Hr Hf].
  - exact Hv.
  - exact Hpost.
  - cbn [rank final_score] in Hr, Hf. rewrite Hr, Hv. cbn [negb].
    cbn [MPA_ranking MPA_final_score]. rewrite Hr, Hf. split; reflexivity.
Qed.

Lemma first_minimal_category_decides_witness :
  MPA_ranking (resolve scores_half flags_tie) = PyInt 2 /\
  MPA_final_score (resolve scores_half flags_tie) = Some (NInt 10) /\
  MPA_final_score (resolve scores_half
                     [ ("missense_impact", PyInt 7); ("splice_impact", PyFalse);
                       ("unknown_impact", PyInt 2); ("stop_impact", PyInt 2) ])
  = Some (NFloat 5).
Proof.
  assert (Hpre : forall c' v',
             fired [("missense_impact", PyInt 7); ("splice_impact", PyFalse)] c' v' ->
             int_of (PyInt 2) < int_of v').
  { intros c' v' [[H | [H | []]] Htr]; injection H as _ <-;
      [simpl; lia | discriminate Htr]. }
  assert (Hpost : forall c' v',
             fired [("unknown_impact", PyInt 2)] c' v' ->
             int_of (PyInt 2) <= int_of v').
  { intros c' v' [[H | []] _]. injection H as _ <-. simpl. lia. }
  destruct (first_minimal_category_decides scores_half
              [("missense_impact", PyInt 7); ("splice_impact", PyFalse)]
              [("unknown_impact", PyInt 2)] "stop_impact" (PyInt 2)
              eq_refl Hpre Hpost) as [Hr Hf].
  split; [exact Hr |]. split; [exact Hf | reflexivity].
Defined.

(** ** The record loop *)

Lemma check_split_variants_outcomes (record : VcfRecord) :
  check_split_variants record = Ok tt \/
  check_split_variants record = Raise (SystemExit multi_ref_error) \/
  check_split_variants record = Raise (SystemExit multi_alt_error).
Proof.
  unfold check_split_variants.
  destruct (1 <? _); [auto |]. destruct (1 <? _); auto.
Qed.

Lemma after_records_nil (st : Run) : after_records [] st = st.
Proof.
  unfold after_records. cbn [flat_map]. rewrite !app_nil_r.
  destruct st; reflexivity.
Qed.

Lemma after_records_cons_rejected (record : VcfRecord)
    (rest : list VcfRecord) (st : Run) (e : string) :
  check_split_variants record = Raise (SystemExit e) ->
  after_records rest
    (log_call ERROR (Msg e) (log_call ERROR (MsgRecord record) st))
  = after_records (record :: rest) st.
Proof.
  intro Hcheck. unfold after_records, log_call. cbn [log written flat_map].
  unfold rejection_log, output_of, passes. rewrite Hcheck.
  cbn [app]. rewrite <- !app_assoc. reflexivity.
Qed.

Lemma after_records_cons_written (record : VcfRecord)
    (rest : list VcfRecord) (st : Run) (a : Annotation) :
  check_split_variants record = Ok tt ->
  annotate record = Ok a ->
  after_records rest (write_record record a st)
  = after_records (record :: rest) st.
Proof.
  intros Hcheck Hout. unfold after_records, write_record.
  cbn [log written flat_map].
  unfold rejection_log, output_of, passes. rewrite Hcheck, Hout.
  cbn [app]. rewrite <- !app_assoc. reflexivity.
Qed.

(** The loop over records none of which stops it. *)
Lemma process_records_through (records : list VcfRecord) (st : Run) :
  existsb stops records = false ->
  process_records records st = (after_records records st, Ok tt).
Proof.
  revert st. induction records as [| r rest IH]; intros st Hnone.
  - rewrite after_records_nil. reflexivity.
  - cbn [existsb] in Hnone. apply orb_false_iff in Hnone.
    destruct Hnone as [Hr Hrest].
    cbn [process_records]. unfold stops, passes in Hr.
    destruct (check_split_variants_outcomes r) as [Hc | [Hc | Hc]];
      rewrite Hc in *.
    + cbn [andb] in Hr.
      destruct (Func_refGene r) as [text |] eqn:Hfunc; [| discriminate].
      destruct (annotate_text r text Hfunc) as (a & Ha). rewrite Ha.
      rewrite (IH _ Hrest). f_equal.
      apply after_records_cons_written; assumption.
    + rewrite (IH _ Hrest). f_equal.
      apply after_records_cons_rejected. exact Hc.
    + rewrite (IH _ Hrest). f_equal.
      apply after_records_cons_rejected. exact Hc.
Qed.

Lemma process_records_app (pre rest : list VcfRecord) (st : Run) :
  existsb stops pre = false ->
  process_records (pre ++ rest)%list st
  = process_records rest (after_records pre st).
Proof.
  revert st. induction pre as [| r pre IH]; intros st Hnone.
  - rewrite after_records_nil. reflexivity.
  - cbn [existsb] in Hnone. apply orb_false_iff in Hnone.
    destruct Hnone as [Hr Hpre].
    cbn [app process_records]. unfold stops, passes in Hr.
    destruct (check_split_variants_outcomes r) as [Hc | [Hc | Hc]];
      rewrite Hc in *.
    + cbn [andb] in Hr.
      destruct (Func_refGene r) as [text |] eqn:Hfunc; [| discriminate].
      destruct (annotate_text r text Hfunc) as (a & Ha). rewrite Ha.
      rewrite (IH _ Hpre). f_equal.
      apply after_records_cons_written; assumption.
    + rewrite (IH _ Hpre). f_equal.
      apply after_records_cons_rejected. exact Hc.
    + rewrite (IH _ Hpre). f_equal.
      apply after_records_cons_rejected. exact Hc.
Qed.

Lemma existsb_stops_false (records : list VcfRecord) :
  (forall r, In r records -> passes r = true -> Func_refGene r <> None) ->
  existsb stops records = false.
Proof.
  intro H. destruct (existsb stops records) eqn:E; [| reflexivity].
  apply existsb_exists in E. destruct E as (r & Hin & Hstop).
  unfold stops in Hstop. apply andb_true_iff in Hstop.
  destruct Hstop as [Hpass Hnull].
  exfalso. apply (H r Hin Hpass).
  destruct (Func_refGene r); [discriminate | reflexivity].
Qed.

(** X15. When every record that passes the validator has a text in its
    functional-region field, the loop ends normally, and the output holds
    exactly the records that pass the validator, each once with its
    annotation, in the order of the file; the log gains the two error
    entries of each rejected record, in that order too. *)
Theorem loop_writes_valid_records_in_order (records : list VcfRecord)
    (st : Run)
    (Htext : forall r, In r records -> passes r = true ->
                       Func_refGene r <> None) :
  process_records records st =
  ({| log := log st ++ flat_map rejection_log records;
      written := written st ++ flat_map output_of records |}, Ok tt) /\
  map fst (flat_map output_of records) = filter passes records.
Proof.
  split.
  - apply process_records_through, existsb_stops_false, Htext.
  - induction records as [| r rest IH]; [reflexivity |].
    cbn [flat_map filter]. rewrite map_app, IH.
    + unfold output_of. destruct (passes r) eqn:Hpass; [| reflexivity].
      destruct (Func_refGene r) as [text |] eqn:Hfunc.
      * destruct (annotate_text r text Hfunc) as (a & Ha). rewrite Ha.
        reflexivity.
      * exfalso. apply (Htext r (or_introl eq_refl) Hpass Hfunc).
    + intros r' Hin. apply Htext. right. exact Hin.
Qed.

Lemma loop_writes_valid_records_in_order_witness :
  fst (process_records [record_missense; record_two_alts; record_clinvar]
         run_start) =
  {| log := [ (ERROR, MsgRecord record_two_alts);
              (ERROR, Msg multi_alt_error) ];
     written := flat_map output_of
                  [record_missense; record_two_alts; record_clinvar] |} /\
  map fst (flat_map output_of
             [record_missense; record_two_alts; record_clinvar])
  = [record_missense; record_clinvar].
Proof.
  assert (Htext : forall r,
             In r [record_missense; record_two_alts; record_clinvar] ->
             passes r = true -> Func_refGene r <> None).
  { intros r [<- | [<- | [<- | []]]] _; discriminate. }
  destruct (loop_writes_valid_records_in_order
              [record_missense; record_two_alts; record_clinvar] run_start
              Htext) as [Hrun Hout].
  split; [rewrite Hrun; reflexivity | rewrite Hout; reflexivity].
Defined.

(** X16. The loop stops at the first record that passes the validator with
    a null functional-region value: [TypeError] leaves the loop, what
    precedes that record has been written and logged as usual, and nothing
    of what follows it is read. *)
Theorem loop_stops_at_null_func (pre post : list VcfRecord)
    (record : VcfRecord) (st : Run)
    (Hpre : forall r, In r pre -> passes r = true -> Func_refGene r <> None)
    (Hpass : passes record = true)
    (Hnull : Func_refGene record = None) :
  process_records (pre ++ record :: post)%list st =
  ({| log := log st ++ flat_map rejection_log pre;
      written := written st ++ flat_map output_of pre |},
   Raise (TypeError "expected string or bytes-like object")).
Proof.
  rewrite (process_records_app pre _ st (existsb_stops_false pre Hpre)).
  cbn [process_records]. unfold passes in Hpass.
  destruct (check_split_variants record) as [[] | e]; [| discriminate].
  rewrite (annotate_null_func record Hnull). reflexivity.
Qed.

Lemma loop_stops_at_null_func_witness :
  passes record_null_func = true /\
  Func_refGene record_null_func = None /\
  process_records ([record_missense] ++ record_null_func :: [record_clinvar])
    run_start =
  ({| log := []; written := [(record_missense, annotation_missense)] |},
   Raise (TypeError "expected string or bytes-like object")).
Proof.
  assert (Hpre : forall r, In r [record_missense] -> passes r = true ->
                           Func_refGene r <> None).
  { intros r [<- | []] _. discriminate. }
  split; [reflexivity |]. split; [reflexivity |].
  rewrite (loop_stops_at_null_func [record_missense] [record_clinvar]
             record_null_func run_start Hpre eq_refl eq_refl).
  reflexivity.
Defined.

(** ** The exit status of the program *)




(** X18. The header check only asks for presence: a header that declares
    at least the fields of a header that passes passes too, whatever the
    order, the repetitions and the other fields it has. *)
Theorem header_check_monotone (infos infos' : list string)
    (Hincl : forall k, In k infos -> In k infos')
    (Hpass : check_annotation infos = Ok tt) :
  check_annotation infos' = Ok tt.
Proof.
  apply check_annotation_passes. intros k Hk.
  apply Hincl. exact (proj1 (check_annotation_passes infos) Hpass k Hk).
Qed.

Lemma header_check_monotone_witness :
  check_annotation required_fields = Ok tt /\
  check_annotation ("GENEINFO" :: rev required_fields) = Ok tt.
Proof.
  assert (Hpass : check_annotation required_fields = Ok tt) by reflexivity.
  split; [exact Hpass |].
  apply (header_check_monotone required_fields
           ("GENEINFO" :: rev required_fields)); [| exact Hpass].
  intros k Hk. right. apply in_rev in Hk. exact Hk.
Defined.

(** ** Locating a program *)

Lemma last_hit_of_reversed (f : string -> bool) (g : string -> string)
    (folders : list string) :
  fold_left (fun soft_path folder =>
               if f (g folder) then Some (g folder) else soft_path)
    (rev folders) None
  = option_map g (find (fun folder => f (g folder)) folders).
Proof.
  induction folders as [| x folders IH]; [reflexivity |].
  cbn [rev find]. rewrite fold_left_app. cbn [fold_left].
  destruct (f (g x)); [reflexivity | exact IH].
Qed.

(** X19. [wich] returns the program in the first folder of PATH, in the
    order of PATH, that holds it, [None] when no folder does, and raises
    [AttributeError] when PATH is not set. *)
Theorem wich_first_folder (path_exists : string -> bool)
    (PATH : option string) (software : string) :
  wich path_exists PATH software =
  match PATH with
  | None => inl (AttributeError "'NoneType' object has no attribute 'split'")
  | Some folders =>
      inr (option_map (fun folder => path_join folder software)
             (find (fun folder => path_exists (path_join folder software))
                (Text.split ":" folders)))
  end.
Proof.
  destruct PATH as [folders |]; [| reflexivity].
  unfold wich. f_equal.
  apply (last_hit_of_reversed path_exists
           (fun folder => path_join folder software)).
Qed.

Lemma find_none_iff {A} (f : A -> bool) (l : list A) :
  find f l = None <-> (forall x, In x l -> f x = false).
Proof.
  split; [apply find_none |].
  induction l as [| x l IH]; intro H; [reflexivity |].
  cbn [find]. rewrite (H x (or_introl eq_refl)).
  apply IH. intros y Hy. apply H. right. exact Hy.
Qed.

(** X20. A path returned by [getSoftwarePath] exists, and it is the program
    in the expected folder or in a folder of PATH; when the program is in
    the expected folder that path is returned without PATH being read. *)
Theorem getSoftwarePath_returns_existing (path_exists : string -> bool)
    (PATH : option string) (software expected_folder : string) :
  (forall path,
     getSoftwarePath path_exists PATH software expected_folder = inr path ->
     path_exists path = true /\
     (path = path_join expected_folder software \/
      exists folders folder,
        PATH = Some folders /\ In folder (Text.split ":" folders) /\
        path = path_join folder software)) /\
  (path_exists (path_join expected_folder software) = true ->
   getSoftwarePath path_exists PATH software expected_folder
   = inr (path_join expected_folder software)).
Proof.
  unfold getSoftwarePath. rewrite wich_first_folder.
  destruct (path_exists (path_join expected_folder software)) eqn:Hhere;
    cbn [negb].
  - split; [| reflexivity].
    intros path H. injection H as <-. auto.
  - split; [| discriminate].
    intros path H. destruct PATH as [folders |]; [| discriminate].
    destruct (find _ (Text.split ":" folders)) as [folder |] eqn:Hfind;
      cbn [option_map] in H; [| discriminate].
    injection H as <-. apply find_some in Hfind.
    destruct Hfind as [Hin Hex]. split; [exact Hex |].
    right. exists folders, folder. auto.
Qed.

(** X21. [getSoftwarePath] raises its [Exception] exactly when PATH is set
    and the program is neither in the expected folder nor in any folder of
    PATH; it raises [AttributeError] exactly when the program is not in the
    expected folder and PATH is not set. *)
Theorem getSoftwarePath_failures (path_exists : string -> bool)
    (PATH : option string) (software expected_folder : string) :
  ((exists msg, getSoftwarePath path_exists PATH software expected_folder
                = inl (PyException msg)) <->
   path_exists (path_join expected_folder software) = false /\
   exists folders,
     PATH = Some folders /\
     forall folder, In folder (Text.split ":" folders) ->
                    path_exists (path_join folder software) = false) /\
  ((exists msg, getSoftwarePath path_exists PATH software expected_folder
                = inl (AttributeError msg)) <->
   path_exists (path_join expected_folder software) = false /\ PATH = None).
Proof.
  unfold getSoftwarePath. rewrite wich_first_folder.
  destruct (path_exists (path_join expected_folder software)) eqn:Hhere;
    cbn [negb].
  - split; (split; [intros (msg & H); discriminate | intros [H _]; discriminate]).
  - destruct PATH as [folders |].
    + destruct (find _ (Text.split ":" folders)) as [folder |] eqn:Hfind;
        cbn [option_map].
      * split; split;
          try (intros (msg & H); discriminate);
          try (intros [_ H]; discriminate).
        intros [_ (folders' & Heq & Hnone)]. injection Heq as <-.
        apply find_some in Hfind. destruct Hfind as [Hin Hex].
        rewrite (Hnone folder Hin) in Hex. discriminate.
      * split; split;
          try (intros (msg & H); discriminate);
          try (intros [_ H]; discriminate).
        -- intros _. split; [reflexivity |]. exists folders.
           split; [reflexivity |]. apply find_none_iff. exact Hfind.
        -- intros _. eexists. reflexivity.
    + split; split;
        try (intros (msg & H); discriminate).
      * intros [_ (folders & H & _)]. discriminate.
      * intros _. auto.
      * intros _. eexists. reflexivity.
Qed.

Example wich_annovar :
  wich only_annovar path_three "table_annovar.pl"
  = inr (Some "/opt/annovar/table_annovar.pl")
  /\ wich only_annovar path_three "convert2annovar.pl" = inr None
  /\ getSoftwarePath only_annovar path_three "table_annovar.pl" "/home/mpa"
     = inr "/opt/annovar/table_annovar.pl".
Proof. repeat split; reflexivity. Qed.
